(** * djangosaml2 views: a shallow embedding of [djangosaml2/views.py]

    The views are modelled as computations over the per-request mutable
    world (the Django session, [request.user] and the sequence of calls
    made to the collaborators), with Python exceptions as an explicit
    outcome.  Collaborators that live outside [views.py] (pysaml2's client,
    Django's template renderer and authentication backend, the settings
    module, [djangosaml2.utils]) are gathered in the record [env]. *)

From stdpp Require Import base strings list gmap.

Set Default Proof Using "Type".
Open Scope string_scope.

(** ** Exceptions and outcomes *)

(** The exception classes that [views.py] raises, catches or lets through. *)
Inductive exn : Type :=
  | KeyError (key : string)
  | TypeError (msg : string)
  | SuspiciousOperation (msg : string)
  | PermissionDenied (msg : string)
  | Http404 (msg : string)
  | IdPConfigurationMissing (msg : string)
  | UnsupportedBinding (msg : string)
  | SourceNotFound (msg : string)
  | TemplateDoesNotExist
  | LogoutError (msg : string)
  | StatusError (subclass : string)   (* StatusError or a subclass not named below *)
  | StatusAuthnFailed
  | StatusRequestDenied
  | StatusNoAuthnContext
  | ToEarly
  | ResponseLifetimeExceed
  | SignatureError
  | MissingKey
  | UnsolicitedResponse (in_response_to : string)
  | OtherException (name : string).

Inductive outcome (A : Type) : Type :=
  | Ok (a : A)
  | Raise (e : exn).
Arguments Ok {A} a.
Arguments Raise {A} e.

(** ** The per-request world *)

(** The Django session, restricted to the keys the SAML code uses.  A key
    that is absent from the session is [None] (subject id) or the empty
    map (the three caches, whose adapters read [session.get(key, {})]). *)
Record session : Type := mkSession {
  s_subject_id : option string;                (* '_saml2_subject_id' *)
  s_outstanding_queries : gmap string string;  (* '_saml2_outstanding_queries' *)
  s_state : gmap string string;                (* '_saml2_state' *)
  s_identities : gmap string string            (* '_saml2_identities' *)
}.

Definition empty_session : session := mkSession None ∅ ∅ ∅.

(** Calls that leave [views.py]; the world records them in order. *)
Inductive event : Type :=
  | EvAuthLogout                                (* django.contrib.auth.logout *)
  | EvDjangoLogout (next_page : option string)  (* LogoutView *)
  | EvGlobalLogout (subject : option string)    (* client.global_logout *)
  | EvHandleLogoutRequest (saml_request : string) (binding : string)
  | EvParseLogoutResponse (saml_response : string) (binding : string)
  | EvParseAuthnResponse (xmlstr : string)
  | EvPrepareForAuthenticate (entityid binding : string)
  | EvCreateAuthnRequest (location binding : string)
  | EvAuthenticate
  | EvPostAuthenticated.

Record world : Type := mkWorld {
  w_session : session;
  w_user_authenticated : bool;   (* request.user.is_authenticated *)
  w_trace : list event
}.

Definition M (A : Type) : Type := world → outcome A * world.

#[export] Instance M_ret : MRet M := λ A a w, (Ok a, w).
#[export] Instance M_bind : MBind M := λ A B k m w,
  match m w with
  | (Ok a, w') => k a w'
  | (Raise e, w') => (Raise e, w')
  end.

Definition raise {A} (e : exn) : M A := λ w, (Raise e, w).

(** [try: m except handles: h]; an exception the clause does not name
    propagates. *)
Definition try_except {A} (m : M A) (handles : exn → bool) (h : exn → M A) : M A :=
  λ w, match m w with
       | (Ok a, w') => (Ok a, w')
       | (Raise e, w') => if handles e then h e w' else (Raise e, w')
       end.

Definition lift {A} (o : outcome A) : M A := λ w, (o, w).
Definition get_session : M session := λ w, (Ok (w_session w), w).
Definition put_session (s : session) : M unit :=
  λ w, (Ok tt, mkWorld s (w_user_authenticated w) (w_trace w)).
Definition is_authenticated : M bool := λ w, (Ok (w_user_authenticated w), w).
Definition emit (e : event) : M unit :=
  λ w, (Ok tt, mkWorld (w_session w) (w_user_authenticated w) (w_trace w ++ [e])).

(** [django.contrib.auth.logout(request)]: flushes [request.session] and
    replaces [request.user] by the anonymous user. *)
Definition auth_logout : M unit :=
  λ w, (Ok tt, mkWorld empty_session false (w_trace w ++ [EvAuthLogout])).

(** ** Requests, responses and pysaml2 values *)

Record request : Type := mkRequest {
  GET : gmap string string;
  POST : gmap string string
}.

Definition BINDING_HTTP_REDIRECT : string :=
  "urn:oasis:names:tc:SAML:2.0:bindings:HTTP-Redirect".
Definition BINDING_HTTP_POST : string :=
  "urn:oasis:names:tc:SAML:2.0:bindings:HTTP-POST".
Definition SIG_RSA_SHA1 : string := "http://www.w3.org/2000/09/xmldsig#rsa-sha1".
Definition SIG_RSA_SHA256 : string :=
  "http://www.w3.org/2001/04/xmldsig-more#rsa-sha256".

(** pysaml2's [http_info] dictionary. *)
Record http_info : Type := mkHttpInfo {
  hi_method : option string;
  hi_data : option (list string);
  hi_headers : list (string * string)
}.

(** What [global_logout] associates with an entity: a
    [(binding, http_info)] tuple, or the response of a SOAP logout. *)
Record logout_response : Type := mkLogoutResponse { status_ok : bool }.

Inductive logout_info : Type :=
  | LogoutTuple (binding : string) (info : http_info)
  | LogoutSoap (response : option logout_response).

Inductive template_context : Type :=
  | CtxEmpty
  | CtxCameFrom (came_from : string)
  | CtxWayf (available_idps : list (string * string)) (came_from : string)
  | CtxPostBinding (target_url saml_request relay_state : string).

Inductive http_response : Type :=
  | HttpResponse (body : string) (status : nat)
  | HttpResponseRedirect (url : string)
  | HttpResponseBadRequest (body : string)
  | HttpResponseServerError (body : string)
  | Render (template : string) (ctx : template_context) (status : nat)
  | FailAcsResponse (e : exn) (status : nat)       (* utils.fail_acs_response *)
  | DjangoLogoutResponse (next_page : option string)
  | RedirectToLogin                                 (* login_required *)
  | WithCookie (r : http_response) (name value : string).

(** The SP configuration object returned by [get_config], with the
    attributes [login] reads through [getattr] already defaulted. *)
Record conf : Type := mkConf {
  sp_force_authn : bool;
  sp_allow_create : bool;
  sp_authn_requests_signed : bool;
  sp_authn_requests_signed_alg : string
}.

(** [session_info] of a parsed authentication response. *)
Record session_info (N : Type) : Type := mkSessionInfo {
  name_id : N;
  issuer : string;
  ava : list (string * list string)
}.
Arguments mkSessionInfo {N} _ _ _.
Arguments name_id {N} _.
Arguments issuer {N} _.
Arguments ava {N} _.

(** A decoded, signature- and time-checked authentication response, before
    it is correlated with the outstanding queries. *)
Record authn_message (N : Type) : Type := mkAuthnMessage {
  in_response_to : string;
  status_failure : option exn;
  am_session_info : session_info N
}.
Arguments mkAuthnMessage {N} _ _ _.
Arguments in_response_to {N} _.
Arguments status_failure {N} _.
Arguments am_session_info {N} _.

(** pysaml2's [AuthnResponse] as [post] uses it. *)
Record authn_response (N : Type) : Type := mkAuthnResponse {
  ar_session_id : string;
  ar_session_info : session_info N
}.
Arguments mkAuthnResponse {N} _ _.
Arguments ar_session_id {N} _.
Arguments ar_session_info {N} _.

(** ** Collaborators *)

Record env : Type := mkEnv {
  NameID : Type;
  (* saml2.ident *)
  code : NameID → string;
  decode : string → NameID;
  (* django.conf.settings *)
  LOGIN_REDIRECT_URL : string;
  LOGOUT_REDIRECT_URL : option string;
  SAML_IGNORE_AUTHENTICATED_USERS_ON_LOGIN : option bool;
  ACS_DEFAULT_REDIRECT_URL : option string;
  (* djangosaml2.conf and djangosaml2.utils *)
  get_config : option string → request → outcome conf;
  available_idps : conf → list (string * string);
  get_idp_sso_supported_bindings : string → conf → outcome (list string);
  validate_referral_url : request → string → string;
  get_location : http_info → outcome string;
  (* django.shortcuts.render *)
  template_exists : string → bool;
  (* pysaml2 client: request side *)
  prepare_for_authenticate :
    conf → string → string → string → list (string * string) →
    outcome (string * http_info);
  sso_location : conf → string → string → outcome string;
  create_authn_request :
    conf → string → string → list (string * string) → outcome (string * string);
  b64encode : string → string;
  (* pysaml2 client: response side *)
  allow_unsolicited : conf → bool;
  decode_authn_response : conf → string → outcome (option (authn_message NameID));
  (* django.contrib.auth and simplejwt *)
  authenticate : request → session_info NameID → option string;
  access_token : string → string;
  (* hooks of AssertionConsumerServiceView *)
  customize_relay_state : string → string;
  custom_redirect : string → string → session_info NameID → option string;
  (* pysaml2 client: logout; each call sees the session and the state
     cache and returns the state cache it leaves *)
  global_logout :
    conf → option NameID → session → gmap string string →
    outcome (list (string * logout_info)) * gmap string string;
  parse_logout_request_response :
    conf → string → string → session → gmap string string →
    outcome (option logout_response) * gmap string string;
  handle_logout_request :
    conf → string → NameID → string → string → session → gmap string string →
    outcome http_info * gmap string string
}.

(** Python truthiness of a string. *)
Definition truthy (s : string) : bool := negb (String.eqb s "").

(** ** Subject id in the session (views.py, lines 71-79) *)

Definition _set_subject_id (E : env) (s : session) (subject_id : NameID E) : session :=
  mkSession (Some (code E subject_id)) (s_outstanding_queries s)
            (s_state s) (s_identities s).

Definition _get_subject_id (E : env) (s : session) : option (NameID E) :=
  match s_subject_id s with
  | Some txt => Some (decode E txt)
  | None => None        (* except KeyError: return None *)
  end.

(** ** Session caches *)

(** Modelled from the spec: [get_saml_request_session] of
    [djangosaml2/utils.py], whose code is missing.  The spec has one key-value session
    store per browser session that holds the outstanding exchanges, the
    logout state and the identity cache; the function returns that store. *)
Definition get_saml_request_session : M session := get_session.

(** Modelled from the spec: [OutstandingQueriesCache] of
    [djangosaml2/cache.py], whose code is missing; it is the spec's
    RequestCorrelationStore.
    [outstanding_queries] is the snapshot of live exchanges, [set] records
    an exchange ([put]) and [delete] removes it. *)
Module OutstandingQueriesCache.
Definition outstanding_queries (s : session) : gmap string string :=
  s_outstanding_queries s.
Definition set (saml2_session_id came_from : string) (s : session) : session :=
  mkSession (s_subject_id s)
            (<[saml2_session_id := came_from]> (s_outstanding_queries s))
            (s_state s) (s_identities s).
Definition delete (saml2_session_id : string) (s : session) : session :=
  mkSession (s_subject_id s)
            (base.delete saml2_session_id (s_outstanding_queries s))
            (s_state s) (s_identities s).
End OutstandingQueriesCache.

(** Modelled from the spec: [StateCache] of [djangosaml2/cache.py], whose
    code is missing; it is the spec's LogoutState store, read from the
    session when it is built and written back by [sync]. *)
Module StateCache.
Definition load (s : session) : gmap string string := s_state s.
Definition sync (state : gmap string string) : M unit :=
  λ w, let s := w_session w in
       (Ok tt, mkWorld (mkSession (s_subject_id s) (s_outstanding_queries s)
                                  state (s_identities s))
                       (w_user_authenticated w) (w_trace w)).
End StateCache.

(** [render(request, template, context, status=...)]. *)
Definition render (E : env) (template : string) (ctx : template_context)
    (status : nat) : M http_response :=
  if template_exists E template then mret (Render template ctx status)
  else raise TemplateDoesNotExist.

(** ** [login] (views.py, lines 82-257) *)

Definition is_TypeError (e : exn) : bool :=
  match e with TypeError _ => true | _ => false end.
Definition is_TemplateDoesNotExist (e : exn) : bool :=
  match e with TemplateDoesNotExist => true | _ => false end.
Definition exn_str (e : exn) : string :=
  match e with
  | KeyError m | TypeError m | SuspiciousOperation m | PermissionDenied m
  | Http404 m | IdPConfigurationMissing m | UnsupportedBinding m
  | SourceNotFound m | LogoutError m | UnsolicitedResponse m
  | OtherException m => m
  | _ => ""
  end.

(** Lines 164-166: the binding to try first. *)
Definition first_binding (sign_requests : bool) : string :=
  if sign_requests then BINDING_HTTP_POST else BINDING_HTTP_REDIRECT.

(** Lines 169-185: make sure the IdP supports the binding, switching once. *)
Definition select_binding (sign_requests : bool) (supported_bindings : list string)
    : outcome string :=
  let binding := first_binding sign_requests in
  if negb (bool_decide (binding ∈ supported_bindings)) then
    let binding :=
      if String.eqb binding BINDING_HTTP_POST then BINDING_HTTP_REDIRECT
      else BINDING_HTTP_POST in
    if negb (bool_decide (binding ∈ supported_bindings)) then
      Raise (UnsupportedBinding "IDP %s does not support %s or %s")
    else Ok binding
  else Ok binding.

(** Lines 141-146. *)
Definition login_kwargs (c : conf) : list (string * string) :=
  ((if sp_force_authn c then [("force_authn", "true")] else []) ++
   (if sp_allow_create c then [("allow_create", "true")] else []))%list.

Definition sig_alg_option_map (alg : string) : outcome string :=
  if String.eqb alg "sha1" then Ok SIG_RSA_SHA1
  else if String.eqb alg "sha256" then Ok SIG_RSA_SHA256
  else Raise (KeyError alg).

(** [result['data']] as the body of an [HttpResponse]. *)
Definition http_info_data (info : http_info) : outcome string :=
  match hi_data info with
  | Some parts => Ok (String.concat "" parts)
  | None => Raise (KeyError "data")
  end.

(** Lines 252-257: record the exchange and hand the response back. *)
Definition login_save (session_id came_from : string) (r : http_response)
    : M http_response :=
  saml_session ← get_saml_request_session;
  put_session (OutstandingQueriesCache.set session_id came_from saml_session);;
  mret r.

(** Lines 191-209: HTTP-Redirect. *)
Definition login_redirect (E : env) (c : conf) (selected_idp came_from : string)
    (kwargs : list (string * string)) : M http_response :=
  let binding := BINDING_HTTP_REDIRECT in
  prepared ← try_except
    (kwargs ← (if sp_authn_requests_signed c then
                 sigalg ← lift (sig_alg_option_map (sp_authn_requests_signed_alg c));
                 mret (kwargs ++ [("sigalg", sigalg)])%list
               else mret kwargs);
     emit (EvPrepareForAuthenticate selected_idp binding);;
     r ← lift (prepare_for_authenticate E c selected_idp came_from binding kwargs);
     mret (inr r))
    is_TypeError (λ e, mret (inl (HttpResponse (exn_str e) 200)));
  match prepared with
  | inl early => mret early
  | inr (session_id, result) =>
      location ← lift (get_location E result);
      login_save session_id came_from (HttpResponseRedirect location)
  end.

(** Lines 238-248: the form pysaml2 provides. *)
Definition login_post_default (E : env) (c : conf) (selected_idp came_from : string)
    : M http_response :=
  let binding := BINDING_HTTP_POST in
  prepared ← try_except
    (emit (EvPrepareForAuthenticate selected_idp binding);;
     r ← lift (prepare_for_authenticate E c selected_idp came_from binding []);
     mret (inr r))
    is_TypeError (λ e, mret (inl (HttpResponse (exn_str e) 200)));
  match prepared with
  | inl early => mret early
  | inr (session_id, result) =>
      body ← lift (http_info_data result);
      login_save session_id came_from (HttpResponse body 200)
  end.

(** Lines 210-248: HTTP-POST. *)
Definition login_post (E : env) (c : conf) (selected_idp came_from : string)
    (kwargs : list (string * string)) (post_binding_form_template : option string)
    : M http_response :=
  let binding := BINDING_HTTP_POST in
  match post_binding_form_template with
  | Some template =>
      if truthy template then
        located ← try_except
          (l ← lift (sso_location E c selected_idp binding); mret (inr l))
          is_TypeError (λ e, mret (inl (HttpResponse (exn_str e) 200)));
        match located with
        | inl early => mret early
        | inr location =>
            emit (EvCreateAuthnRequest location binding);;
            '(session_id, request_xml) ←
              lift (create_authn_request E c location binding kwargs);
            http_response ← try_except
              (let saml_request := b64encode E request_xml in
               r ← render E template
                     (CtxPostBinding location saml_request came_from) 200;
               mret (Some r))
              is_TemplateDoesNotExist (λ _, mret None);
            match http_response with
            | Some r => login_save session_id came_from r
            | None => login_post_default E c selected_idp came_from
            end
        end
      else login_post_default E c selected_idp came_from
  | None => login_post_default E c selected_idp came_from
  end.

(** Lines 148-162: is an embedded discovery page needed?  [inl] is the page
    returned at once, [inr] the IdP to use. *)
Definition login_select_idp (E : env) (c : conf) (selected_idp : option string)
    (came_from wayf_template : string) : M (http_response + string) :=
  let idps := available_idps E c in
  match selected_idp with
  | None =>
      if bool_decide (1 < length idps) then
        r ← render E wayf_template (CtxWayf idps came_from) 200;
        mret (inl r)
      else
        match idps with
        | [] => raise (IdPConfigurationMissing
                         "IdP configuration is missing or its metadata is expired.")
        | (entityid, _) :: _ => mret (inr entityid)
        end
  | Some idp =>
      match idps with
      | [] => raise (IdPConfigurationMissing
                       "IdP configuration is missing or its metadata is expired.")
      | _ :: _ => mret (inr idp)
      end
  end.

(** Lines 104-108. *)
Definition login_came_from (E : env) (req : request) : string :=
  let came_from := default (LOGIN_REDIRECT_URL E) (GET req !! "next") in
  let came_from := if truthy came_from then came_from else LOGIN_REDIRECT_URL E in
  validate_referral_url E req came_from.

(** Lines 187-250: send the request over the binding that was selected. *)
Definition login_send (E : env) (c : conf) (selected_idp came_from : string)
    (post_binding_form_template : option string) (binding : string)
    : M http_response :=
  let kwargs := login_kwargs c in
  if String.eqb binding BINDING_HTTP_REDIRECT then
    login_redirect E c selected_idp came_from kwargs
  else if String.eqb binding BINDING_HTTP_POST then
    login_post E c selected_idp came_from kwargs post_binding_form_template
  else
    raise (UnsupportedBinding "Unsupported binding: %s").

Definition login (E : env) (req : request) (config_loader_path : option string)
    (wayf_template authorization_error_template : string)
    (post_binding_form_template : option string) : M http_response :=
  let came_from := login_came_from E req in
  authenticated ← is_authenticated;
  if authenticated : bool then
    if default true (SAML_IGNORE_AUTHENTICATED_USERS_ON_LOGIN E) then
      mret (HttpResponseRedirect came_from)
    else
      render E authorization_error_template (CtxCameFrom came_from) 200
  else
    let selected_idp := GET req !! "idp" in
    match get_config E config_loader_path req with
    | Raise (SourceNotFound _) =>
        mret (HttpResponse
                "Error, IdP EntityID was not found in metadata: Please contact technical support."
                500)
    | Raise e => raise e
    | Ok c =>
        choice ← login_select_idp E c selected_idp came_from wayf_template;
        match choice with
        | inl page => mret page
        | inr selected_idp =>
            let sign_requests := sp_authn_requests_signed c in
            supported_bindings ←
              lift (get_idp_sso_supported_bindings E selected_idp c);
            binding ← lift (select_binding sign_requests supported_bindings);
            login_send E c selected_idp came_from post_binding_form_template
                       binding
        end
    end.

(** ** [AssertionConsumerServiceView.post] (views.py, lines 275-388) *)

(** Modelled from the spec: [client.parse_authn_request_response] of
    [Saml2Client] in [djangosaml2/overrides.py], whose code is missing.
    The spec's ResponseProcessor pipeline: decoding, signature and
    time window (stages 1-3, [decode_authn_response]); then the response's
    InResponseTo must match a currently outstanding request id, absent or
    unknown being an unsolicited response unless the deployment allows
    those (stage 4); then the top-level status (stage 5); then the subject
    and attributes are extracted into the identity record (stage 6).  The
    parser only reads the snapshot of outstanding queries it is given. *)
Definition parse_authn_request_response (E : env) (c : conf)
    (xmlstr binding : string) (outstanding_queries : gmap string string)
    : M (option (authn_response (NameID E))) :=
  emit (EvParseAuthnResponse xmlstr);;
  decoded ← lift (decode_authn_response E c xmlstr);
  match decoded with
  | None => mret None
  | Some msg =>
      if bool_decide (is_Some (outstanding_queries !! in_response_to msg))
         || allow_unsolicited E c then
        match status_failure msg with
        | Some e => raise e
        | None =>
            let info := am_session_info msg in
            s ← get_session;
            put_session (mkSession (s_subject_id s) (s_outstanding_queries s)
                           (s_state s)
                           (<[code E (name_id info) := issuer info]> (s_identities s)));;
            mret (Some (mkAuthnResponse (in_response_to msg) info))
        end
      else raise (UnsolicitedResponse (in_response_to msg))
  end.

(** The [except] clauses of lines 303-326.  The first clause names
    [StatusError] and so catches each of its subclasses, those the later
    clauses name ([StatusAuthnFailed], [StatusRequestDenied],
    [StatusNoAuthnContext]) and every other one ([StatusError subclass]);
    every clause answers [fail_acs_response]. *)
Definition acs_handled (e : exn) : bool :=
  match e with
  | StatusError _ | StatusAuthnFailed | StatusRequestDenied | StatusNoAuthnContext
  | ToEarly | ResponseLifetimeExceed | SignatureError | MissingKey
  | UnsolicitedResponse _ => true
  | _ => false
  end.

(** Lines 390-401. *)
Definition build_relay_state (E : env) (req : request) : string :=
  let default_relay_state :=
    default (LOGIN_REDIRECT_URL E) (ACS_DEFAULT_REDIRECT_URL E) in
  let relay_state := default "/" (POST req !! "RelayState") in
  let relay_state := customize_relay_state E relay_state in
  if truthy relay_state then relay_state else default_relay_state.

Definition set_auth_cookie (E : env) (user : string) (r : http_response)
    : http_response :=
  WithCookie r "Authentication" (access_token E user).

Definition post (E : env) (req : request) (config_loader_path : option string)
    : M http_response :=
  c ← lift (get_config E config_loader_path req);
  match POST req !! "SAMLResponse" with
  | None => raise (SuspiciousOperation "")
  | Some xmlstr =>
      s ← get_session;
      let outstanding_queries := OutstandingQueriesCache.outstanding_queries s in
      parsed ← try_except
        (r ← parse_authn_request_response E c xmlstr BINDING_HTTP_POST
               outstanding_queries;
         mret (inr r))
        acs_handled (λ e, mret (inl (FailAcsResponse e 403)));
      match parsed with
      | inl failure => mret failure
      | inr None =>
          mret (FailAcsResponse (SuspiciousOperation "Unknown SAML2 error") 400)
      | inr (Some response) =>
          let session_id := ar_session_id response in
          s ← get_session;
          put_session (OutstandingQueriesCache.delete session_id s);;
          let session_info := ar_session_info response in
          emit EvAuthenticate;;
          match authenticate E req session_info with
          | None =>
              mret (FailAcsResponse
                      (PermissionDenied "No user could be authenticated.") 403)
          | Some user =>
              s ← get_session;
              put_session (_set_subject_id E s (name_id session_info));;
              emit EvPostAuthenticated;;
              let relay_state := build_relay_state E req in
              match custom_redirect E user relay_state session_info with
              | Some custom_redirect_url =>
                  if truthy custom_redirect_url then
                    mret (set_auth_cookie E user
                            (HttpResponseRedirect custom_redirect_url))
                  else
                    mret (set_auth_cookie E user
                            (HttpResponseRedirect
                               (validate_referral_url E req relay_state)))
              | None =>
                  mret (set_auth_cookie E user
                          (HttpResponseRedirect
                             (validate_referral_url E req relay_state)))
              end
          end
      end
  end.

(** ** Logout (views.py, lines 447-596) *)

(** Lines 520-522. *)
Definition _do_local_logout : M unit :=
  authenticated ← is_authenticated;
  if authenticated : bool then auth_logout else mret tt.

(** [@login_required]: the view runs for an authenticated user only. *)
Definition login_required {A} (view : M A) (anonymous : A) : M A :=
  authenticated ← is_authenticated;
  if authenticated : bool then view else mret anonymous.

(** [django_logout(request, next_page=...)], Django's [LogoutView]: the view
    calls [django.contrib.auth.logout] itself, whoever the user is, and
    answers the logout response. *)
Definition django_logout (next_page : option string) : M http_response :=
  emit (EvDjangoLogout next_page);;
  auth_logout;;
  mret (DjangoLogoutResponse next_page).

(** Lines 587-596. *)
Definition finish_logout (E : env) (response : option logout_response)
    (next_page : option string) : M http_response :=
  match response with
  | Some r =>
      if status_ok r then
        let next_page :=
          match next_page with
          | None => LOGOUT_REDIRECT_URL E
          | Some p => Some p
          end in
        django_logout next_page
      else render E "djangosaml2/logout_error.html" CtxEmpty 200
  | None => render E "djangosaml2/logout_error.html" CtxEmpty 200
  end.

Definition is_LogoutError (e : exn) : bool :=
  match e with LogoutError _ => true | _ => false end.

(** The location of [HttpResponseRedirect(settings.LOGOUT_REDIRECT_URL)].
    Django's global settings define the setting as [None], so reading it
    never fails; the redirect is then made to the text of [None]. *)
Definition settings_LOGOUT_REDIRECT_URL (E : env) : outcome string :=
  match LOGOUT_REDIRECT_URL E with
  | Some url => Ok url
  | None => Ok "None"
  end.

(** Lines 481-505.  The loop body returns in its first iteration, so only
    the first item of [result] is looked at; with more than one item the
    source logs 'I will logout just from the first one'. *)
Definition logout_dispatch (E : env) (result : list (string * logout_info))
    : M http_response :=
  match result with
  | [] => mret (HttpResponseBadRequest "You are not logged in any IdP/AA")
  | (entityid, logout_info) :: _ =>
      match logout_info with
      | LogoutTuple binding http_info =>
          if String.eqb binding BINDING_HTTP_POST then
            body ← lift (http_info_data http_info);
            mret (HttpResponse body 200)
          else if String.eqb binding BINDING_HTTP_REDIRECT then
            location ← lift (get_location E http_info);
            mret (HttpResponseRedirect location)
          else mret (HttpResponseServerError "Failed to log out")
      | LogoutSoap response => finish_logout E response None
      end
  end.

(** [client.global_logout(subject_id)] on the client built over the state
    cache [state]; also answers the state cache the call leaves. *)
Definition call_global_logout (E : env) (c : conf) (subject_id : option (NameID E))
    (state : gmap string string)
    : M (outcome (list (string * logout_info)) * gmap string string) :=
  emit (EvGlobalLogout (code E <$> subject_id));;
  s ← get_session;
  mret (global_logout E c subject_id s state).

(** The body of [logout], lines 454-505. *)
Definition logout_body (E : env) (req : request) (config_loader_path : option string)
    : M http_response :=
  _do_local_logout;;
  saml_session ← get_saml_request_session;
  let state := StateCache.load saml_session in
  c ← lift (get_config E config_loader_path req);
  let subject_id := _get_subject_id E saml_session in
  '(result, state) ← call_global_logout E c subject_id state;
  match result with
  | Raise e =>
      if is_LogoutError e then
        _do_local_logout;;
        StateCache.sync state;;
        url ← lift (settings_LOGOUT_REDIRECT_URL E);
        mret (HttpResponseRedirect url)
      else raise e
  | Ok result =>
      StateCache.sync state;;
      logout_dispatch E result
  end.

Definition logout (E : env) (req : request) (config_loader_path : option string)
    : M http_response :=
  login_required (logout_body E req config_loader_path) RedirectToLogin.

(** Lines 525-584. *)
Definition do_logout_service (E : env) (req : request) (data : gmap string string)
    (binding : string) (config_loader_path next_page : option string)
    (logout_error_template : string) : M http_response :=
  c ← lift (get_config E config_loader_path req);
  saml_session ← get_saml_request_session;
  let state := StateCache.load saml_session in
  StateCache.sync state;;
  match data !! "SAMLResponse" with
  | Some saml_response =>           (* we started the logout *)
      emit (EvParseLogoutResponse saml_response binding);;
      s ← get_session;
      response ←
        lift (parse_logout_request_response E c saml_response binding s state).1;
      finish_logout E response next_page
  | None =>
      match data !! "SAMLRequest" with
      | Some saml_request =>        (* logout started by the IdP *)
          saml_session ← get_saml_request_session;
          match _get_subject_id E saml_session with
          | None =>
              _do_local_logout;;
              render E logout_error_template CtxEmpty 403
          | Some subject_id =>
              emit (EvHandleLogoutRequest saml_request binding);;
              http_info ←
                lift (handle_logout_request E c saml_request subject_id binding
                        (default "" (data !! "RelayState")) saml_session state).1;
              _do_local_logout;;
              if bool_decide (default "GET" (hi_method http_info) = "POST")
                 && bool_decide (is_Some (hi_data http_info))
                 && bool_decide (("Content-type", "text/html") ∈ hi_headers http_info)
              then
                body ← lift (http_info_data http_info);
                mret (HttpResponse body 200)
              else
                location ← lift (get_location E http_info);
                mret (HttpResponseRedirect location)
          end
      | None => raise (Http404 "No SAMLResponse or SAMLRequest parameter found")
      end
  end.

(** Lines 508-509. *)
Definition logout_service (E : env) (req : request)
    (config_loader_path next_page : option string) (logout_error_template : string)
    : M http_response :=
  do_logout_service E req (GET req) BINDING_HTTP_REDIRECT
                    config_loader_path next_page logout_error_template.

(** Lines 512-517: every exception is logged and the function then falls
    off its end, which in Python returns [None]. *)
Definition logout_service_post (E : env) (req : request)
    (config_loader_path next_page : option string) (logout_error_template : string)
    : M (option http_response) :=
  try_except
    (r ← do_logout_service E req (POST req) BINDING_HTTP_POST
           config_loader_path next_page logout_error_template;
     mret (Some r))
    (λ _, true) (λ _, mret None).

(** ** A concrete deployment, used to run the views *)

Module Demo.
Definition idp1 : string := "https://idp1.example.org/".
Definition idp2 : string := "https://idp2.example.org/".

Definition demo_location (info : http_info) : outcome string :=
  match hi_headers info with
  | [("Location", url)] => Ok url
  | _ => Raise (OtherException "AssertionError")
  end.

Definition demo_decode (txt : string) : string :=
  match txt with
  | String _ (String _ rest) => rest
  | _ => ""
  end.

Definition redirect_to (url : string) : http_info :=
  mkHttpInfo None None [("Location", url)].

(** The knobs are the configured IdPs, the bindings they advertise,
    whether requests are signed, whether unsolicited responses are
    allowed, the user the backend resolves and what [global_logout]
    answers. *)
Definition demo_env (idps : list (string * string)) (supported : list string)
    (signed unsolicited : bool) (user : option string)
    (slo : outcome (list (string * logout_info))) : env :=
  {| NameID := string;
     code := λ n, "4=" +:+ n;
     decode := demo_decode;
     LOGIN_REDIRECT_URL := "/";
     LOGOUT_REDIRECT_URL := Some "/bye";
     SAML_IGNORE_AUTHENTICATED_USERS_ON_LOGIN := None;
     ACS_DEFAULT_REDIRECT_URL := None;
     get_config := λ _ _, Ok (mkConf false false signed "sha1");
     available_idps := λ _, idps;
     get_idp_sso_supported_bindings := λ _ _, Ok supported;
     validate_referral_url := λ _ url, url;
     get_location := demo_location;
     template_exists := λ _, true;
     prepare_for_authenticate := λ _ idp relay _ _,
       Ok ("id-1", mkHttpInfo None (Some ["<form>"; "</form>"])
                     [("Location", idp +:+ "?RelayState=" +:+ relay)]);
     sso_location := λ _ idp _, Ok idp;
     create_authn_request := λ _ _ _ _, Ok ("id-1", "<AuthnRequest/>");
     b64encode := λ x, x;
     allow_unsolicited := λ _, unsolicited;
     decode_authn_response := λ _ xmlstr,
       if String.eqb xmlstr "response-to-id-1" then
         Ok (Some (mkAuthnMessage "id-1" None (mkSessionInfo "alice" idp1 [])))
       else Ok None;
     authenticate := λ _ _, user;
     access_token := λ u, "jwt-" +:+ u;
     customize_relay_state := λ r, r;
     custom_redirect := λ _ _ _, None;
     global_logout := λ _ _ _ state, (slo, state);
     parse_logout_request_response := λ _ _ _ _ state,
       (Ok (Some (mkLogoutResponse true)), state);
     handle_logout_request := λ _ _ _ _ _ _ state,
       (Ok (redirect_to (idp1 +:+ "slo")), state) |}.

Definition two_idps : list (string * string) :=
  [(idp1, "IdP 1"); (idp2, "IdP 2")].
Definition one_idp : list (string * string) := [(idp1, "IdP 1")].


Definition anonymous : world := mkWorld empty_session false [].
Definition logged_in : world :=
  mkWorld (mkSession (Some "4=alice") ∅ ∅ ∅) true [].

(** The browser session after a login that issued request [id-1] from
    [/dashboard], and the form the IdP posts back. *)
Definition awaiting : world :=
  mkWorld (mkSession None {["id-1" := "/dashboard"]} ∅ ∅) false [].
Definition acs_request (payload : string) : request :=
  mkRequest ∅ {["SAMLResponse" := payload; "RelayState" := "/dashboard"]}.
End Demo.

(** ** Vocabulary of the properties *)

(** The other one of the two bindings [login] knows. *)
Definition other_binding (binding : string) : string :=
  if String.eqb binding BINDING_HTTP_POST then BINDING_HTTP_REDIRECT
  else BINDING_HTTP_POST.

(** [idp] is the IdP named by the [idp] parameter, or the only IdP
    configured when the parameter is absent. *)
Definition selected_or_sole (param : option string) (idps : list (string * string))
    (idp : string) : Prop :=
  match param, idps with
  | Some i, _ :: _ => i = idp
  | None, [(i, _)] => i = idp
  | _, _ => False
  end.

(** The response is the discovery page listing [idps]. *)
Definition is_discovery_page (idps : list (string * string)) (r : http_response)
    : bool :=
  match r with
  | Render _ (CtxWayf listed _) _ => bool_decide (listed = idps)
  | _ => false
  end.

(** The outstanding-queries cache held by a world's session. *)
Definition outstanding (w : world) : gmap string string :=
  OutstandingQueriesCache.outstanding_queries (w_session w).

(** [post] ended in failure: it raised, or answered [fail_acs_response]. *)
Definition acs_failed (r : outcome http_response) : bool :=
  match r with
  | Raise _ => true
  | Ok (FailAcsResponse _ _) => true
  | Ok _ => false
  end.

(** How many times [django.contrib.auth.logout] was called. *)
Definition is_auth_logout (e : event) : bool :=
  match e with EvAuthLogout => true | _ => false end.
Definition auth_logout_calls (trace : list event) : nat :=
  length (List.filter is_auth_logout trace).



(** The events a local logout adds: [auth.logout] runs for an authenticated
    user only. *)
Definition local_logout_events (w : world) : list event :=
  if w_user_authenticated w then [EvAuthLogout] else [].

(** Lines 571-581: the response that carries the LogoutResponse built by
    the client. *)
Definition logout_response_transport (E : env) (info : http_info)
    : outcome http_response :=
  if bool_decide (default "GET" (hi_method info) = "POST")
     && bool_decide (is_Some (hi_data info))
     && bool_decide (("Content-type", "text/html") ∈ hi_headers info)
  then match http_info_data info with
       | Ok body => Ok (HttpResponse body 200)
       | Raise e => Raise e
       end
  else match get_location E info with
       | Ok location => Ok (HttpResponseRedirect location)
       | Raise e => Raise e
       end.

(** ** Further vocabulary *)



(** ** Deployments in which collaborators fail *)

Module Faulty.
(** A deployment with one IdP that advertises [supported]; the knobs are
    the configuration, which templates exist, and what the client answers
    when it prepares a request, decodes an authentication response,
    performs the global logout, parses a logout response and handles a
    logout request. *)
Definition faulty_env (c : conf) (supported : list string) (templates : string → bool)
    (prepared : outcome (string * http_info))
    (decoded : outcome (option (authn_message string)))
    (user : option string)
    (slo : outcome (list (string * logout_info)) * gmap string string)
    (slo_parsed : outcome (option logout_response))
    (handled : outcome http_info) : env :=
  {| NameID := string;
     code := λ n, "4=" +:+ n;
     decode := Demo.demo_decode;
     LOGIN_REDIRECT_URL := "/";
     LOGOUT_REDIRECT_URL := Some "/bye";
     SAML_IGNORE_AUTHENTICATED_USERS_ON_LOGIN := None;
     ACS_DEFAULT_REDIRECT_URL := None;
     get_config := λ _ _, Ok c;
     available_idps := λ _, Demo.one_idp;
     get_idp_sso_supported_bindings := λ _ _, Ok supported;
     validate_referral_url := λ _ url, url;
     get_location := Demo.demo_location;
     template_exists := templates;
     prepare_for_authenticate := λ _ _ _ _ _, prepared;
     sso_location := λ _ idp _, Ok idp;
     create_authn_request := λ _ _ _ _, Ok ("id-created", "<AuthnRequest/>");
     b64encode := λ x, x;
     allow_unsolicited := λ _, false;
     decode_authn_response := λ _ _, decoded;
     authenticate := λ _ _, user;
     access_token := λ u, "jwt-" +:+ u;
     customize_relay_state := λ r, r;
     custom_redirect := λ _ _ _, None;
     global_logout := λ _ _ _ _, slo;
     parse_logout_request_response := λ _ _ _ _ state, (slo_parsed, state);
     handle_logout_request := λ _ _ _ _ _ _ state, (handled, state) |}.

Definition plain_conf : conf := mkConf false false false "sha1".
Definition prepared_ok : outcome (string * http_info) :=
  Ok ("id-prepared", mkHttpInfo None (Some ["<form>"; "</form>"])
                       [("Location", "https://idp1.example.org/sso")]).
Definition valid_message : authn_message string :=
  mkAuthnMessage "id-1" None (mkSessionInfo "alice" Demo.idp1 []).
Definition no_slo : outcome (list (string * logout_info)) * gmap string string :=
  (Ok [], ∅).
End Faulty.

(** * Properties *)

Ltac run :=
  unfold mbind, M_bind, mret, M_ret, lift, raise, try_except, emit, get_session,
    put_session, is_authenticated, get_saml_request_session in *; simpl in *.

(** ** The views at work *)

Example login_redirect_run :
  let E := Demo.demo_env Demo.one_idp [BINDING_HTTP_REDIRECT] false false None (Ok []) in
  let req := mkRequest {["next" := "/dashboard"]} ∅ in
  let out := login E req None "djangosaml2/wayf.html" "djangosaml2/auth_error.html"
               (Some "djangosaml2/post_binding_form.html") Demo.anonymous in
  out.1 = Ok (HttpResponseRedirect "https://idp1.example.org/?RelayState=/dashboard")
  ∧ outstanding (out.2) !! "id-1" = Some "/dashboard"
  ∧ w_trace (out.2) = [EvPrepareForAuthenticate Demo.idp1 BINDING_HTTP_REDIRECT].
Proof. split_and!; vm_compute; reflexivity. Qed.

Example login_post_run :
  let E := Demo.demo_env Demo.one_idp [BINDING_HTTP_POST] true false None (Ok []) in
  let req := mkRequest {["next" := "/dashboard"]} ∅ in
  let out := login E req None "djangosaml2/wayf.html" "djangosaml2/auth_error.html"
               (Some "djangosaml2/post_binding_form.html") Demo.anonymous in
  out.1 = Ok (Render "djangosaml2/post_binding_form.html"
                (CtxPostBinding Demo.idp1 "<AuthnRequest/>" "/dashboard") 200)
  ∧ outstanding (out.2) !! "id-1" = Some "/dashboard"
  ∧ w_trace (out.2) = [EvCreateAuthnRequest Demo.idp1 BINDING_HTTP_POST].
Proof. split_and!; vm_compute; reflexivity. Qed.

Example login_unsupported_run :
  let E := Demo.demo_env Demo.one_idp [] false false None (Ok []) in
  login E (mkRequest ∅ ∅) None "djangosaml2/wayf.html" "djangosaml2/auth_error.html"
        None Demo.anonymous =
    (Raise (UnsupportedBinding "IDP %s does not support %s or %s"), Demo.anonymous).
Proof. reflexivity. Qed.

Example post_run :
  let E := Demo.demo_env Demo.one_idp [] false false (Some "alice") (Ok []) in
  let out := post E (Demo.acs_request "response-to-id-1") None Demo.awaiting in
  out.1 = Ok (WithCookie (HttpResponseRedirect "/dashboard")
                         "Authentication" "jwt-alice")
  ∧ _get_subject_id E (w_session (out.2)) = Some "alice"
  ∧ w_trace (out.2) =
      [EvParseAuthnResponse "response-to-id-1"; EvAuthenticate; EvPostAuthenticated].
Proof. split_and!; vm_compute; reflexivity. Qed.

Example logout_no_idp_run :
  let E := Demo.demo_env Demo.one_idp [] false false None (Ok []) in
  let out := logout E (mkRequest ∅ ∅) None Demo.logged_in in
  out.1 = Ok (HttpResponseBadRequest "You are not logged in any IdP/AA")
  ∧ w_trace (out.2) = [EvAuthLogout; EvGlobalLogout None].
Proof. split_and!; vm_compute; reflexivity. Qed.

(** ** Subject id storage *)

(** C10: reading the subject id right after storing it gives back the stored
    name id, provided saml2's [decode] inverts [code]; reading it from a
    session that holds no subject id gives [None] and does not raise. *)
Theorem subject_id_roundtrip (E : env)
    (decode_code : ∀ n : NameID E, decode E (code E n) = n)
    (s : session) (subject_id : NameID E) :
  _get_subject_id E (_set_subject_id E s subject_id) = Some subject_id
  ∧ ∀ oq st ids, _get_subject_id E (mkSession None oq st ids) = None.
Proof.
  split.
  - unfold _get_subject_id, _set_subject_id; simpl. by rewrite decode_code.
  - intros oq st ids. reflexivity.
Qed.

Lemma subject_id_roundtrip_witness :
  let E := Demo.demo_env Demo.one_idp [] false false None (Ok []) in
  (∀ n : NameID E, decode E (code E n) = n)
  ∧ _get_subject_id E (_set_subject_id E empty_session "alice") = Some "alice".
Proof.
  intros E.
  assert (H : ∀ n : NameID E, decode E (code E n) = n) by (intros n; reflexivity).
  split; [exact H|].
  exact (proj1 (subject_id_roundtrip E H empty_session "alice")).
Defined.

(** ** Binding selection in [login] *)

Lemma select_binding_cases (sign_requests : bool) (supported : list string) :
  select_binding sign_requests supported =
    let first := first_binding sign_requests in
    if decide (first ∈ supported) then Ok first
    else if decide (other_binding first ∈ supported) then Ok (other_binding first)
    else Raise (UnsupportedBinding "IDP %s does not support %s or %s").
Proof.
  unfold select_binding, other_binding. simpl.
  destruct (decide (first_binding sign_requests ∈ supported)) as [Hin|Hnin].
  - by rewrite bool_decide_eq_true_2.
  - rewrite (bool_decide_eq_false_2 _ Hnin). simpl.
    destruct (decide _) as [Hin'|Hnin'].
    + by rewrite bool_decide_eq_true_2.
    + by rewrite bool_decide_eq_false_2.
Qed.

(** C5: for a login that reaches an IdP (selected by parameter, or the only
    one configured), the binding tried first is HTTP-POST exactly when
    requests are signed and HTTP-Redirect otherwise; the request goes out
    over that binding when the IdP supports it, over the other of the two
    when only that one is supported, and when neither is supported login
    raises UnsupportedBinding at once, having called nothing else. *)
Theorem login_binding_selection (E : env) (req : request)
    (config_loader_path : option string) (wayf_template auth_error_template : string)
    (post_template : option string) (w : world) (c : conf) (idp : string)
    (supported : list string) :
  w_user_authenticated w = false →
  get_config E config_loader_path req = Ok c →
  selected_or_sole (GET req !! "idp") (available_idps E c) idp →
  get_idp_sso_supported_bindings E idp c = Ok supported →
  let first := first_binding (sp_authn_requests_signed c) in
  let other := other_binding first in
  let send := login_send E c idp (login_came_from E req) post_template in
  (first = BINDING_HTTP_POST ↔ sp_authn_requests_signed c = true)
  ∧ (first = BINDING_HTTP_REDIRECT ↔ sp_authn_requests_signed c = false)
  ∧ other ≠ first
  ∧ login E req config_loader_path wayf_template auth_error_template post_template w =
      if decide (first ∈ supported) then send first w
      else if decide (other ∈ supported) then send other w
      else (Raise (UnsupportedBinding "IDP %s does not support %s or %s"), w).
Proof.
  intros Hanon Hconf Hidp Hsup first other send.
  split_and!.
  - subst first. destruct (sp_authn_requests_signed c); simpl; split; done.
  - subst first. destruct (sp_authn_requests_signed c); simpl; split; done.
  - subst other first. destruct (sp_authn_requests_signed c); simpl; done.
  - assert (Hsel : login_select_idp E c (GET req !! "idp") (login_came_from E req)
                     wayf_template w = (Ok (inr idp), w)).
    { unfold login_select_idp, selected_or_sole in *.
      destruct (GET req !! "idp") as [i|], (available_idps E c) as [|[i1 n1] [|? ?]];
        simpl in *; try done; by subst. }
    unfold login. run. rewrite Hanon, Hconf, Hsel, Hsup.
    rewrite select_binding_cases. simpl. fold first. fold other.
    destruct (decide (first ∈ supported)); [done|].
    destruct (decide (other ∈ supported)); done.
Qed.

Lemma login_binding_selection_witness :
  let E := Demo.demo_env Demo.one_idp [BINDING_HTTP_POST] false false None (Ok []) in
  let req := mkRequest ∅ ∅ in
  let c := mkConf false false false "sha1" in
  (w_user_authenticated Demo.anonymous = false
   ∧ get_config E None req = Ok c
   ∧ selected_or_sole (GET req !! "idp") (available_idps E c) Demo.idp1
   ∧ get_idp_sso_supported_bindings E Demo.idp1 c = Ok [BINDING_HTTP_POST])
  ∧ login E req None "wayf.html" "error.html" None Demo.anonymous =
      login_send E c Demo.idp1 "/" None BINDING_HTTP_POST Demo.anonymous.
Proof.
  intros E req c.
  split; [by repeat split|].
  exact (proj2 (proj2 (proj2
    (login_binding_selection E req None "wayf.html" "error.html" None
       Demo.anonymous c Demo.idp1 [BINDING_HTTP_POST]
       eq_refl eq_refl eq_refl eq_refl)))).
Defined.

(** ** Discovery *)

(** C7, as amended: when the user is not yet authenticated, the
    configuration loads, more than one IdP is configured and no [idp]
    parameter is given, login answers the discovery page listing the
    available IdPs together with came_from; it calls no collaborator and
    leaves the session as it was, so no request is created or sent. *)
Theorem login_discovery (E : env) (req : request)
    (config_loader_path : option string) (wayf_template auth_error_template : string)
    (post_template : option string) (w : world) (c : conf) :
  w_user_authenticated w = false →
  get_config E config_loader_path req = Ok c →
  template_exists E wayf_template = true →
  1 < length (available_idps E c) →
  GET req !! "idp" = None →
  login E req config_loader_path wayf_template auth_error_template post_template w =
    (Ok (Render wayf_template
           (CtxWayf (available_idps E c) (login_came_from E req)) 200), w).
Proof.
  intros Hanon Hconf Htpl Hmany Hidp.
  unfold login, login_select_idp, render. run.
  rewrite Hanon, Hconf, Hidp.
  rewrite bool_decide_eq_true_2 by done. simpl. by rewrite Htpl.
Qed.

Lemma login_discovery_witness :
  let E := Demo.demo_env Demo.two_idps [] false false None (Ok []) in
  let req := mkRequest ∅ ∅ in
  1 < length (available_idps E (mkConf false false false "sha1"))
  ∧ login E req None "djangosaml2/wayf.html" "djangosaml2/auth_error.html" None
          Demo.anonymous =
      (Ok (Render "djangosaml2/wayf.html" (CtxWayf Demo.two_idps "/") 200),
       Demo.anonymous).
Proof.
  intros E req. split; [simpl; lia|].
  apply (login_discovery E req None "djangosaml2/wayf.html"
           "djangosaml2/auth_error.html" None Demo.anonymous
           (mkConf false false false "sha1"));
    [reflexivity | reflexivity | reflexivity | simpl; lia | reflexivity].
Defined.

(** C7 as first stated fails: an already authenticated user who calls login
    with two IdPs configured and no [idp] parameter is redirected to
    came_from and is shown no discovery page. *)
Lemma login_discovery_counterexample :
  let E := Demo.demo_env Demo.two_idps [] false false None (Ok []) in
  let req := mkRequest ∅ ∅ in
  1 < length (available_idps E (mkConf false false false "sha1"))
  ∧ GET req !! "idp" = None
  ∧ login E req None "djangosaml2/wayf.html" "djangosaml2/auth_error.html" None
          Demo.logged_in = (Ok (HttpResponseRedirect "/"), Demo.logged_in)
  ∧ is_discovery_page Demo.two_idps (HttpResponseRedirect "/") = false.
Proof.
  intros E req. split_and!; [simpl; lia | reflexivity | reflexivity | reflexivity].
Qed.

(** ** The assertion consumer service and the outstanding queries *)

Lemma login_save_records (session_id came_from : string) (r : http_response)
    (w : world) :
  (login_save session_id came_from r w).1 = Ok r
  ∧ outstanding (login_save session_id came_from r w).2 !! session_id
    = Some came_from.
Proof.
  unfold login_save, outstanding. run. split; [done|].
  unfold OutstandingQueriesCache.outstanding_queries. simpl.
  apply lookup_insert_eq.
Qed.

(** A parse that does not produce a response leaves the session alone. *)
Lemma parse_failure_keeps_session (E : env) (c : conf) (xmlstr binding : string)
    (oq : gmap string string) (w : world) :
  let run := parse_authn_request_response E c xmlstr binding oq w in
  (∀ response, run.1 ≠ Ok (Some response)) →
  w_session run.2 = w_session w.
Proof.
  unfold parse_authn_request_response. run.
  destruct (decode_authn_response E c xmlstr) as [[msg|]|e]; simpl; try done.
  destruct (bool_decide _ || allow_unsolicited E c); simpl; try done.
  destruct (status_failure msg); simpl; try done.
  intros H. by destruct (H _ eq_refl).
Qed.

Lemma parse_success_session (E : env) (c : conf) (xmlstr binding : string)
    (oq : gmap string string) (w : world) response :
  let run := parse_authn_request_response E c xmlstr binding oq w in
  run.1 = Ok (Some response) →
  s_outstanding_queries (w_session run.2) = s_outstanding_queries (w_session w).
Proof.
  unfold parse_authn_request_response. run.
  destruct (decode_authn_response E c xmlstr) as [[msg|]|e]; simpl; try done.
  destruct (bool_decide _ || allow_unsolicited E c); simpl; try done.
  destruct (status_failure msg); simpl; done.
Qed.

(** C4, as amended: when the parse stage of [post] does not produce a
    response (the configuration does not load, the SAMLResponse parameter is
    missing, the client raises a signature, time-window, status, missing-key
    or unsolicited-response error or any other exception, or returns None),
    [post] fails and the session, with its outstanding-queries cache, is
    exactly as before; when the parse stage produces a response, its entry
    is deleted from the cache whatever the outcome of the local
    authentication that follows. *)
Theorem post_cache_on_failure (E : env) (req : request)
    (config_loader_path : option string) (w : world) :
  let parsed c xmlstr :=
    parse_authn_request_response E c xmlstr BINDING_HTTP_POST (outstanding w) w in
  let out := post E req config_loader_path w in
  ((∀ c xmlstr response,
      get_config E config_loader_path req = Ok c →
      POST req !! "SAMLResponse" = Some xmlstr →
      (parsed c xmlstr).1 ≠ Ok (Some response)) →
   acs_failed (out.1) = true ∧ w_session (out.2) = w_session w)
  ∧ (∀ c xmlstr response,
      get_config E config_loader_path req = Ok c →
      POST req !! "SAMLResponse" = Some xmlstr →
      (parsed c xmlstr).1 = Ok (Some response) →
      outstanding (out.2) = delete (ar_session_id response) (outstanding w)).
Proof.
  intros parsed out. subst parsed out. unfold post, outstanding. run.
  destruct (get_config E config_loader_path req) as [c|e] eqn:Hconf; simpl.
  2:{ split; [done|]. intros; done. }
  destruct (POST req !! "SAMLResponse") as [xmlstr|] eqn:Hpost; simpl.
  2:{ split; [done|]. intros; done. }
  pose proof (parse_failure_keeps_session E c xmlstr BINDING_HTTP_POST
                (s_outstanding_queries (w_session w)) w) as Hfail.
  pose proof (parse_success_session E c xmlstr BINDING_HTTP_POST
                (s_outstanding_queries (w_session w)) w) as Hsucc.
  simpl in Hfail, Hsucc.
  unfold OutstandingQueriesCache.outstanding_queries in *.
  destruct (parse_authn_request_response E c xmlstr BINDING_HTTP_POST
              (s_outstanding_queries (w_session w)) w) as [[[resp|]|e] w1] eqn:Hp;
    simpl in *.
  - split.
    + intros H. specialize (H c xmlstr resp eq_refl eq_refl).
      by rewrite Hp in H.
    + intros c' x' resp' [= <-] [= <-]. rewrite Hp. intros [= <-].
      rewrite <- (Hsucc resp eq_refl).
      destruct (authenticate E req (ar_session_info resp)); simpl; [|done].
      by destruct (custom_redirect E _ _ _) as [u|]; [destruct (truthy u)|].
  - split; [|intros c' x' resp' [= <-] [= <-]; by rewrite Hp].
    intros _. split; [done|]. by apply Hfail.
  - split; [|intros c' x' resp' [= <-] [= <-]; by rewrite Hp].
    intros _. destruct (acs_handled e); simpl; (split; [done|]); by apply Hfail.
Qed.

Lemma post_cache_on_failure_witness :
  let E := Demo.demo_env Demo.one_idp [] false false (Some "alice") (Ok []) in
  let out := post E (Demo.acs_request "garbage") None Demo.awaiting in
  acs_failed (out.1) = true ∧ w_session (out.2) = w_session Demo.awaiting.
Proof.
  intros E out.
  apply (proj1 (post_cache_on_failure E (Demo.acs_request "garbage") None
                  Demo.awaiting)).
  intros c xmlstr response [= <-] [= <-]. vm_compute. discriminate.
Defined.

(** C4 as first stated fails: a response that parses, but for which the
    authentication backend finds no user, ends in [fail_acs_response] and
    its entry has been deleted from the outstanding-queries cache. *)
Lemma post_cache_on_failure_counterexample :
  let E := Demo.demo_env Demo.one_idp [] false false None (Ok []) in
  let out := post E (Demo.acs_request "response-to-id-1") None Demo.awaiting in
  (out.1) = Ok (FailAcsResponse (PermissionDenied "No user could be authenticated.") 403)
  ∧ acs_failed (out.1) = true
  ∧ outstanding Demo.awaiting !! "id-1" = Some "/dashboard"
  ∧ outstanding (out.2) !! "id-1" = None
  ∧ outstanding (out.2) ≠ outstanding Demo.awaiting.
Proof.
  intros E out.
  assert (H1 : outstanding Demo.awaiting !! "id-1" = Some "/dashboard")
    by (vm_compute; reflexivity).
  assert (H2 : outstanding (out.2) !! "id-1" = None) by (vm_compute; reflexivity).
  split_and!; [vm_compute; reflexivity | vm_compute; reflexivity | done | done |].
  intros Heq. rewrite Heq, H1 in H2. discriminate.
Qed.

(** C1, as amended: login records (session_id, came_from) in the
    outstanding-queries cache; when the deployment does not allow
    unsolicited responses, a valid response to an outstanding request is
    processed successfully once, which deletes its entry, and posting the
    same payload again is answered with the UnsolicitedResponse failure and
    changes the cache no further. *)
Theorem acs_consumes_once (E : env) (req : request)
    (config_loader_path : option string) (w : world) (c : conf)
    (xmlstr came_from user : string) (msg : authn_message (NameID E)) :
  get_config E config_loader_path req = Ok c →
  POST req !! "SAMLResponse" = Some xmlstr →
  allow_unsolicited E c = false →
  decode_authn_response E c xmlstr = Ok (Some msg) →
  status_failure msg = None →
  outstanding w !! in_response_to msg = Some came_from →
  authenticate E req (am_session_info msg) = Some user →
  let first := post E req config_loader_path w in
  let second := post E req config_loader_path first.2 in
  (∀ r0 w0, outstanding (login_save (in_response_to msg) came_from r0 w0).2
              !! in_response_to msg = Some came_from)
  ∧ acs_failed first.1 = false
  ∧ outstanding first.2 = delete (in_response_to msg) (outstanding w)
  ∧ outstanding first.2 !! in_response_to msg = None
  ∧ second.1 = Ok (FailAcsResponse (UnsolicitedResponse (in_response_to msg)) 403)
  ∧ outstanding second.2 = outstanding first.2.
Proof.
  intros Hconf Hpost Hallow Hdec Hstatus Hout Hauth first second.
  assert (Hfirst : ∃ r w1,
            first = (Ok (set_auth_cookie E user (HttpResponseRedirect r)), w1)
            ∧ outstanding w1 = delete (in_response_to msg) (outstanding w)).
  { subst first. unfold post, parse_authn_request_response, outstanding in *. run.
    unfold OutstandingQueriesCache.outstanding_queries in *.
    rewrite Hconf, Hpost. simpl. rewrite Hdec. simpl.
    rewrite Hout. rewrite bool_decide_eq_true_2 by eauto. simpl.
    rewrite Hstatus. simpl. rewrite Hauth. simpl.
    destruct (custom_redirect E _ _ _) as [u|]; [destruct (truthy u)|];
      simpl; eauto. }
  destruct Hfirst as (r & w1 & Hfirst & Hw1).
  assert (Hgone : outstanding w1 !! in_response_to msg = None)
    by (rewrite Hw1; apply lookup_delete_eq).
  split_and!.
  - intros r0 w0. apply login_save_records.
  - by rewrite Hfirst.
  - by rewrite Hfirst.
  - by rewrite Hfirst.
  - subst second. rewrite Hfirst. simpl.
    unfold post, parse_authn_request_response, outstanding in *. run.
    unfold OutstandingQueriesCache.outstanding_queries in *.
    rewrite Hconf, Hpost. simpl. rewrite Hdec. simpl.
    rewrite Hgone, Hallow. rewrite bool_decide_eq_false_2 by (by intros [? ?]).
    reflexivity.
  - subst second. rewrite Hfirst. simpl.
    unfold post, parse_authn_request_response, outstanding in *. run.
    unfold OutstandingQueriesCache.outstanding_queries in *.
    rewrite Hconf, Hpost. simpl. rewrite Hdec. simpl.
    rewrite Hgone, Hallow. rewrite bool_decide_eq_false_2 by (by intros [? ?]).
    reflexivity.
Qed.

Lemma acs_consumes_once_witness :
  let E := Demo.demo_env Demo.one_idp [] false false (Some "alice") (Ok []) in
  let req := Demo.acs_request "response-to-id-1" in
  let first := post E req None Demo.awaiting in
  let second := post E req None first.2 in
  outstanding Demo.awaiting !! "id-1" = Some "/dashboard"
  ∧ acs_failed first.1 = false
  ∧ outstanding first.2 !! "id-1" = None
  ∧ second.1 = Ok (FailAcsResponse (UnsolicitedResponse "id-1") 403).
Proof.
  intros E req first second.
  pose proof (acs_consumes_once E req None Demo.awaiting
                (mkConf false false false "sha1") "response-to-id-1"
                "/dashboard" "alice"
                (mkAuthnMessage "id-1" None (mkSessionInfo "alice" Demo.idp1 []))
                eq_refl eq_refl eq_refl eq_refl eq_refl eq_refl eq_refl)
    as (_ & H1 & _ & H2 & H3 & _).
  exact (conj eq_refl (conj H1 (conj H2 H3))).
Defined.

(** C1 as first stated fails: in a deployment that allows unsolicited
    responses the second post of the same payload succeeds again. *)
Lemma acs_consumes_once_counterexample :
  let E := Demo.demo_env Demo.one_idp [] false true (Some "alice") (Ok []) in
  let req := Demo.acs_request "response-to-id-1" in
  let first := post E req None Demo.awaiting in
  let second := post E req None first.2 in
  outstanding Demo.awaiting !! "id-1" = Some "/dashboard"
  ∧ acs_failed first.1 = false
  ∧ outstanding first.2 !! "id-1" = None
  ∧ second.1 = Ok (WithCookie (HttpResponseRedirect "/dashboard")
                              "Authentication" "jwt-alice")
  ∧ acs_failed second.1 = false.
Proof.
  intros E req first second. split_and!; vm_compute; reflexivity.
Qed.

(** ** Logout initiation *)

Ltac close_trace :=
  eexists; split_and!;
    [ rewrite <- ?app_assoc; simpl; reflexivity
    | reflexivity
    | reflexivity ].

(** C2, as amended: whenever the logout view runs (its user is
    authenticated, which [login_required] ensures), the first thing it does
    is the local logout, before the configuration is loaded and before
    [global_logout] is called, so the user ends up logged out locally
    whatever the remote logout does afterwards (a result for zero, one or
    many entities, a LogoutError, any other exception).  [auth.logout] is
    not called again by the view, except on one path: when the view ends in
    Django's logout view (the first entry of the result is a SOAP logout
    response whose status is OK), that view calls [auth.logout] a second
    time. *)
Theorem logout_local_first (E : env) (req : request)
    (config_loader_path : option string) (w : world) :
  w_user_authenticated w = true →
  let out := logout E req config_loader_path w in
  ∃ rest,
    w_trace (out.2) = (w_trace w ++ EvAuthLogout :: rest)%list
    ∧ w_user_authenticated (out.2) = false
    ∧ auth_logout_calls rest =
        match out.1 with
        | Ok (DjangoLogoutResponse _) => 1
        | _ => 0
        end.
Proof.
  intros Hauth out. subst out.
  unfold logout, login_required, logout_body, _do_local_logout,
    call_global_logout, auth_logout. run.
  rewrite Hauth; simpl; rewrite ?Hauth; simpl.
  destruct (get_config E config_loader_path req) as [c|e]; simpl;
    [|close_trace].
  destruct (global_logout E c _ _ _) as [[result|e] state]; simpl.
  - unfold logout_dispatch, finish_logout, django_logout, render, auth_logout. run.
    destruct result as [|[entityid [binding info|[response|]]] ?]; simpl;
      [close_trace| | |].
    + destruct (String.eqb binding BINDING_HTTP_POST); simpl.
      { destruct (http_info_data info); simpl; close_trace. }
      destruct (String.eqb binding BINDING_HTTP_REDIRECT); simpl;
        [|close_trace].
      destruct (get_location E info); simpl; close_trace.
    + destruct (status_ok response); simpl; [close_trace|].
      destruct (template_exists E _); simpl; close_trace.
    + destruct (template_exists E _); simpl; close_trace.
  - destruct (is_LogoutError e); simpl; [|close_trace].
    destruct (settings_LOGOUT_REDIRECT_URL E); simpl; close_trace.
Qed.

Lemma logout_local_first_witness :
  let E := Demo.demo_env Demo.one_idp [] false false None
             (Raise (LogoutError "SLO not supported")) in
  let out := logout E (mkRequest ∅ ∅) None Demo.logged_in in
  out.1 = Ok (HttpResponseRedirect "/bye")
  ∧ ∃ rest,
      w_trace (out.2) = (w_trace Demo.logged_in ++ EvAuthLogout :: rest)%list
      ∧ w_user_authenticated (out.2) = false
      ∧ auth_logout_calls rest = 0.
Proof.
  intros E out. split; [reflexivity|].
  exact (logout_local_first E (mkRequest ∅ ∅) None Demo.logged_in eq_refl).
Defined.

(** C2 as first stated fails: when [global_logout] answers a SOAP logout
    response whose status is OK, the local logout at the start of the view
    is followed by Django's logout view, and [auth.logout] has been called
    twice. *)
Lemma logout_local_first_counterexample :
  let E := Faulty.faulty_env Faulty.plain_conf [] (λ _, true) Faulty.prepared_ok
             (Ok None) None
             (Ok [(Demo.idp1, LogoutSoap (Some (mkLogoutResponse true)))], ∅)
             (Ok None) (Raise (OtherException "unused")) in
  let out := logout E (mkRequest ∅ ∅) None Demo.logged_in in
  out.1 = Ok (DjangoLogoutResponse (Some "/bye"))
  ∧ w_trace (out.2) =
      [EvAuthLogout; EvGlobalLogout None; EvDjangoLogout (Some "/bye");
       EvAuthLogout]
  ∧ auth_logout_calls (w_trace (out.2)) = 2.
Proof.
  intros E out. split_and!; vm_compute; reflexivity.
Qed.




(** ** The logout service *)

(** C9: a payload with neither SAMLResponse nor SAMLRequest makes
    [do_logout_service] raise Http404, and the world is exactly as before:
    the session is unchanged, the user is still logged in or not as before,
    and no logout or client call has been made. *)
Theorem logout_service_not_found (E : env) (req : request)
    (data : gmap string string) (binding : string)
    (config_loader_path next_page : option string) (logout_error_template : string)
    (w : world) (c : conf) :
  get_config E config_loader_path req = Ok c →
  data !! "SAMLResponse" = None →
  data !! "SAMLRequest" = None →
  do_logout_service E req data binding config_loader_path next_page
                    logout_error_template w =
    (Raise (Http404 "No SAMLResponse or SAMLRequest parameter found"), w).
Proof.
  intros Hconf Hresp Hreq. unfold do_logout_service. run.
  rewrite Hconf. destruct w as [[] ? ?]. simpl. by rewrite Hresp, Hreq.
Qed.

Lemma logout_service_not_found_witness :
  let E := Demo.demo_env Demo.one_idp [] false false None (Ok []) in
  let req := mkRequest {["RelayState" := "/"]} ∅ in
  logout_service E req None None "djangosaml2/logout_error.html" Demo.logged_in =
    (Raise (Http404 "No SAMLResponse or SAMLRequest parameter found"),
     Demo.logged_in).
Proof.
  intros E req.
  exact (logout_service_not_found E req (GET req) BINDING_HTTP_REDIRECT None None
           "djangosaml2/logout_error.html" Demo.logged_in
           (mkConf false false false "sha1") eq_refl eq_refl eq_refl).
Defined.

(** C8: on a LogoutRequest from the IdP, when the session holds no subject
    id the service performs the local logout, calls no client operation and
    answers the logout error page with status 403; when the session holds
    one, the service has the client handle the request for that subject,
    then performs the local logout and answers the transport response the
    client built.  Either way the user ends up logged out locally. *)
Theorem logout_service_idp_request (E : env) (req : request)
    (data : gmap string string) (binding saml_request : string)
    (config_loader_path next_page : option string) (logout_error_template : string)
    (w : world) (c : conf) :
  get_config E config_loader_path req = Ok c →
  data !! "SAMLResponse" = None →
  data !! "SAMLRequest" = Some saml_request →
  let out := do_logout_service E req data binding config_loader_path next_page
               logout_error_template w in
  (_get_subject_id E (w_session w) = None →
   template_exists E logout_error_template = true →
   out.1 = Ok (Render logout_error_template CtxEmpty 403)
   ∧ w_trace (out.2) = (w_trace w ++ local_logout_events w)%list
   ∧ w_user_authenticated (out.2) = false)
  ∧ (∀ subject_id info state,
       _get_subject_id E (w_session w) = Some subject_id →
       handle_logout_request E c saml_request subject_id binding
         (default "" (data !! "RelayState")) (w_session w)
         (StateCache.load (w_session w)) = (Ok info, state) →
       out.1 = logout_response_transport E info
       ∧ w_trace (out.2) =
           (w_trace w ++ EvHandleLogoutRequest saml_request binding
                         :: local_logout_events w)%list
       ∧ w_user_authenticated (out.2) = false).
Proof.
  intros Hconf Hresp Hreq out. subst out.
  unfold do_logout_service. run. rewrite Hconf.
  destruct w as [[subject oq st ids] auth trace]. simpl. rewrite Hresp, Hreq.
  unfold local_logout_events, _do_local_logout, auth_logout, render. run.
  split.
  - intros -> Htpl. rewrite Htpl.
    destruct auth; simpl; by rewrite ?app_nil_r.
  - intros subject_id info state -> Hhandle.
    unfold StateCache.load in Hhandle. rewrite Hhandle. simpl.
    unfold logout_response_transport.
    destruct auth; simpl;
      (destruct (_ && _); simpl;
       [destruct (http_info_data info)|destruct (get_location E info)]; simpl;
       by rewrite <- ?app_assoc).
Qed.

Lemma logout_service_idp_request_witness :
  let E := Demo.demo_env Demo.one_idp [] false false None (Ok []) in
  let req := mkRequest {["SAMLRequest" := "logout-request"]} ∅ in
  let out := logout_service E req None None "djangosaml2/logout_error.html"
               Demo.logged_in in
  out.1 = Ok (HttpResponseRedirect "https://idp1.example.org/slo")
  ∧ w_trace (out.2) =
      [EvHandleLogoutRequest "logout-request" BINDING_HTTP_REDIRECT; EvAuthLogout]
  ∧ w_user_authenticated (out.2) = false.
Proof.
  intros E req out.
  exact (proj2 (logout_service_idp_request E req (GET req) BINDING_HTTP_REDIRECT
                  "logout-request" None None "djangosaml2/logout_error.html"
                  Demo.logged_in (mkConf false false false "sha1")
                  eq_refl eq_refl eq_refl)
           "alice" (Demo.redirect_to "https://idp1.example.org/slo") ∅
           eq_refl eq_refl).
Defined.

Lemma logout_service_post_swallows (E : env) (req : request)
    (config_loader_path next_page : option string) (logout_error_template : string)
    (w w' : world) (e : exn) :
  do_logout_service E req (POST req) BINDING_HTTP_POST config_loader_path
                    next_page logout_error_template w = (Raise e, w') →
  logout_service_post E req config_loader_path next_page logout_error_template w =
    (Ok None, w').
Proof. intros H. unfold logout_service_post. run. by rewrite H. Qed.

(** C6 does not hold of [logout_service_post]: a POST to the logout service
    with neither SAMLResponse nor SAMLRequest makes [do_logout_service]
    raise Http404, as the GET endpoint reports to its caller, but the POST
    endpoint catches the exception, logs it and returns [None]: the caller
    receives neither the error nor any response. *)
Theorem logout_service_post_discards_error :
  let E := Demo.demo_env Demo.one_idp [] false false None (Ok []) in
  let req := mkRequest ∅ {["RelayState" := "/"]} in
  let template := "djangosaml2/logout_error.html" in
  do_logout_service E req (POST req) BINDING_HTTP_POST None None template
                    Demo.logged_in =
    (Raise (Http404 "No SAMLResponse or SAMLRequest parameter found"),
     Demo.logged_in)
  ∧ logout_service E (mkRequest (POST req) ∅) None None template Demo.logged_in =
      (Raise (Http404 "No SAMLResponse or SAMLRequest parameter found"),
       Demo.logged_in)
  ∧ logout_service_post E req None None template Demo.logged_in =
      (Ok None, Demo.logged_in).
Proof.
  intros E req template.
  assert (H : do_logout_service E req (POST req) BINDING_HTTP_POST None None
                template Demo.logged_in =
              (Raise (Http404 "No SAMLResponse or SAMLRequest parameter found"),
               Demo.logged_in)) by reflexivity.
  split_and!; [exact H | reflexivity |].
  exact (logout_service_post_swallows E req None None template _ _ _ H).
Qed.

(** * Further properties of the views *)

(** ** Binding selection *)

(** X1: the binding [select_binding] answers is one the IdP advertises and
    is HTTP-POST or HTTP-Redirect; it raises only UnsupportedBinding, and
    only when the IdP advertises neither of the two, whatever else it
    advertises. *)
Theorem select_binding_sound (sign_requests : bool) (supported : list string) :
  match select_binding sign_requests supported with
  | Ok binding =>
      binding ∈ supported
      ∧ (binding = BINDING_HTTP_POST ∨ binding = BINDING_HTTP_REDIRECT)
  | Raise e =>
      (BINDING_HTTP_POST ∉ supported) ∧ (BINDING_HTTP_REDIRECT ∉ supported)
      ∧ e = UnsupportedBinding "IDP %s does not support %s or %s"
  end.
Proof.
  rewrite select_binding_cases. simpl.
  destruct (decide (first_binding sign_requests ∈ supported)) as [Hin|Hnin].
  - split; [done|]. destruct sign_requests; simpl; auto.
  - destruct (decide (other_binding (first_binding sign_requests) ∈ supported))
      as [Hin'|Hnin'].
    + split; [done|]. destruct sign_requests; simpl; auto.
    + destruct sign_requests; simpl in *; done.
Qed.

(** ** [login]: answers given before any request is built *)

(** X2: an already authenticated user is answered without the configuration
    being loaded, any collaborator being called or the session being
    touched: by a redirect to came_from when
    SAML_IGNORE_AUTHENTICATED_USERS_ON_LOGIN is unset or true, by the
    authorization error page otherwise; with the [next] parameter absent or
    empty, came_from is the validated LOGIN_REDIRECT_URL. *)
Theorem login_authenticated_user (E : env) (req : request)
    (config_loader_path : option string) (wayf_template auth_error_template : string)
    (post_template : option string) (w : world) :
  w_user_authenticated w = true →
  login E req config_loader_path wayf_template auth_error_template post_template w =
    ((if default true (SAML_IGNORE_AUTHENTICATED_USERS_ON_LOGIN E) then
        Ok (HttpResponseRedirect (login_came_from E req))
      else if template_exists E auth_error_template then
        Ok (Render auth_error_template (CtxCameFrom (login_came_from E req)) 200)
      else Raise TemplateDoesNotExist), w)
  ∧ (GET req !! "next" = None ∨ GET req !! "next" = Some "" →
     login_came_from E req = validate_referral_url E req (LOGIN_REDIRECT_URL E)).
Proof.
  intros Hauth. split.
  - unfold login, render. run. rewrite Hauth.
    destruct (default true _); [done|].
    by destruct (template_exists E auth_error_template).
  - unfold login_came_from, truthy.
    intros [-> | ->]; simpl; [|done].
    by destruct (String.eqb (LOGIN_REDIRECT_URL E) "").
Qed.

Lemma login_authenticated_user_witness :
  let E := Demo.demo_env Demo.two_idps [] true false None (Ok []) in
  let req := mkRequest {["next" := ""]} ∅ in
  login E req None "djangosaml2/wayf.html" "djangosaml2/auth_error.html" None
        Demo.logged_in = (Ok (HttpResponseRedirect "/"), Demo.logged_in).
Proof.
  intros E req.
  exact (proj1 (login_authenticated_user E req None "djangosaml2/wayf.html"
                  "djangosaml2/auth_error.html" None Demo.logged_in eq_refl)).
Defined.

(** X3: for a user who is not authenticated, a configuration that fails to
    load with SourceNotFound is answered by the status-500 page, any other
    failure to load propagates, and a configuration without any IdP makes
    login raise IdPConfigurationMissing whether or not an [idp] parameter
    was given; in each case nothing is called and the session is as it
    was. *)
Theorem login_configuration_errors (E : env) (req : request)
    (config_loader_path : option string) (wayf_template auth_error_template : string)
    (post_template : option string) (w : world) :
  w_user_authenticated w = false →
  let out := login E req config_loader_path wayf_template auth_error_template
               post_template w in
  match get_config E config_loader_path req with
  | Raise (SourceNotFound _) =>
      out = (Ok (HttpResponse
                   "Error, IdP EntityID was not found in metadata: Please contact technical support."
                   500), w)
  | Raise e => out = (Raise e, w)
  | Ok c =>
      available_idps E c = [] →
      out = (Raise (IdPConfigurationMissing
                      "IdP configuration is missing or its metadata is expired."), w)
  end.
Proof.
  intros Hanon out. subst out. unfold login, login_select_idp. run.
  rewrite Hanon.
  destruct (get_config E config_loader_path req) as [c|e]; [|by destruct e].
  intros ->. simpl. by destruct (GET req !! "idp").
Qed.

Lemma login_configuration_errors_witness :
  let E := Demo.demo_env [] [BINDING_HTTP_POST] false false None (Ok []) in
  let req := mkRequest {["idp" := Demo.idp1]} ∅ in
  login E req None "djangosaml2/wayf.html" "djangosaml2/auth_error.html" None
        Demo.anonymous =
    (Raise (IdPConfigurationMissing
              "IdP configuration is missing or its metadata is expired."),
     Demo.anonymous).
Proof.
  intros E req.
  exact (login_configuration_errors E req None "djangosaml2/wayf.html"
           "djangosaml2/auth_error.html" None Demo.anonymous eq_refl eq_refl).
Defined.

(** ** [login]: what a run may do to the world *)







(** ** [login]: building and sending the request *)

Lemma login_reaches_send (E : env) (req : request)
    (config_loader_path : option string) (wayf_template auth_error_template : string)
    (post_template : option string) (w : world) (c : conf) (idp : string)
    (supported : list string) :
  w_user_authenticated w = false →
  get_config E config_loader_path req = Ok c →
  selected_or_sole (GET req !! "idp") (available_idps E c) idp →
  get_idp_sso_supported_bindings E idp c = Ok supported →
  login E req config_loader_path wayf_template auth_error_template post_template w =
    match select_binding (sp_authn_requests_signed c) supported with
    | Ok binding =>
        login_send E c idp (login_came_from E req) post_template binding w
    | Raise e => (Raise e, w)
    end.
Proof.
  intros Hanon Hconf Hidp Hsup.
  assert (Hsel : login_select_idp E c (GET req !! "idp") (login_came_from E req)
                   wayf_template w = (Ok (inr idp), w)).
  { unfold login_select_idp, selected_or_sole in *.
    destruct (GET req !! "idp") as [i|], (available_idps E c) as [|[i1 n1] [|? ?]];
      simpl in *; try done; by subst. }
  unfold login. run. rewrite Hanon, Hconf, Hsel, Hsup.
  by destruct (select_binding _ supported).
Qed.

(** X5: when requests are signed, the IdP advertises HTTP-Redirect but not
    HTTP-POST, and the configured signature algorithm is neither 'sha1' nor
    'sha256', login raises KeyError for that algorithm: the lookup in the
    algorithm table is not covered by the TypeError handler, no request is
    prepared and nothing is recorded. *)
Theorem login_unknown_signature_algorithm (E : env) (req : request)
    (config_loader_path : option string) (wayf_template auth_error_template : string)
    (post_template : option string) (w : world) (c : conf) (idp : string)
    (supported : list string) :
  w_user_authenticated w = false →
  get_config E config_loader_path req = Ok c →
  selected_or_sole (GET req !! "idp") (available_idps E c) idp →
  get_idp_sso_supported_bindings E idp c = Ok supported →
  sp_authn_requests_signed c = true →
  BINDING_HTTP_POST ∉ supported →
  BINDING_HTTP_REDIRECT ∈ supported →
  sp_authn_requests_signed_alg c ≠ "sha1" →
  sp_authn_requests_signed_alg c ≠ "sha256" →
  login E req config_loader_path wayf_template auth_error_template post_template w =
    (Raise (KeyError (sp_authn_requests_signed_alg c)), w).
Proof.
  intros Hanon Hconf Hidp Hsup Hsigned Hpost Hredirect Hsha1 Hsha256.
  rewrite (login_reaches_send E req config_loader_path wayf_template
             auth_error_template post_template w c idp supported) by done.
  rewrite select_binding_cases, Hsigned. simpl.
  destruct (decide (BINDING_HTTP_POST ∈ supported)); [done|].
  unfold other_binding. simpl.
  destruct (decide (BINDING_HTTP_REDIRECT ∈ supported)); [|done].
  unfold login_send, login_redirect, sig_alg_option_map. simpl. run.
  rewrite Hsigned.
  destruct (String.eqb_spec (sp_authn_requests_signed_alg c) "sha1"); [done|].
  destruct (String.eqb_spec (sp_authn_requests_signed_alg c) "sha256"); [done|].
  reflexivity.
Qed.

Lemma login_unknown_signature_algorithm_witness :
  let c := mkConf false false true "md5" in
  let E := Faulty.faulty_env c [BINDING_HTTP_REDIRECT] (λ _, true)
             Faulty.prepared_ok (Ok None) None Faulty.no_slo (Ok None)
             (Raise (OtherException "unused")) in
  login E (mkRequest ∅ ∅) None "djangosaml2/wayf.html" "djangosaml2/auth_error.html"
        None Demo.anonymous = (Raise (KeyError "md5"), Demo.anonymous).
Proof.
  intros c E.
  apply (login_unknown_signature_algorithm E (mkRequest ∅ ∅) None
           "djangosaml2/wayf.html" "djangosaml2/auth_error.html" None
           Demo.anonymous c Demo.idp1 [BINDING_HTTP_REDIRECT]);
    try reflexivity.
  - apply (bool_decide_unpack _). vm_compute. exact I.
  - apply (bool_decide_unpack _). vm_compute. exact I.
  - discriminate.
  - discriminate.
Defined.

(** X6: when no form template is passed and the client raises while it
    prepares the request, a TypeError is answered by a status-200 page that
    shows the text of the exception and any other exception propagates;
    either way no outstanding query is recorded. *)
Theorem login_prepare_failure (E : env) (c : conf) (idp came_from binding : string)
    (e : exn) (w : world) :
  binding = BINDING_HTTP_REDIRECT ∨ binding = BINDING_HTTP_POST →
  sp_authn_requests_signed c = false →
  (∀ kwargs, prepare_for_authenticate E c idp came_from binding kwargs = Raise e) →
  login_send E c idp came_from None binding w =
    (if is_TypeError e then Ok (HttpResponse (exn_str e) 200) else Raise e,
     mkWorld (w_session w) (w_user_authenticated w)
             (w_trace w ++ [EvPrepareForAuthenticate idp binding])).
Proof.
  intros [-> | ->] Hsigned Hprepare; unfold login_send; simpl.
  - unfold login_redirect. run. rewrite Hsigned. simpl. rewrite Hprepare. simpl.
    by destruct (is_TypeError e).
  - unfold login_post, login_post_default. run. rewrite Hprepare. simpl.
    by destruct (is_TypeError e).
Qed.

Lemma login_prepare_failure_witness :
  let E := Faulty.faulty_env Faulty.plain_conf [BINDING_HTTP_REDIRECT] (λ _, true)
             (Raise (TypeError "no IdP")) (Ok None) None Faulty.no_slo (Ok None)
             (Raise (OtherException "unused")) in
  login_send E Faulty.plain_conf Demo.idp1 "/" None BINDING_HTTP_REDIRECT
             Demo.anonymous =
    (Ok (HttpResponse "no IdP" 200),
     mkWorld empty_session false
             [EvPrepareForAuthenticate Demo.idp1 BINDING_HTTP_REDIRECT]).
Proof.
  intros E.
  exact (login_prepare_failure E Faulty.plain_conf Demo.idp1 "/"
           BINDING_HTTP_REDIRECT (TypeError "no IdP") Demo.anonymous
           (or_introl eq_refl) eq_refl (λ _, eq_refl)).
Defined.

(** X7: over HTTP-POST with a form template that is named but does not
    exist, login falls back to the form pysaml2 provides: the request it
    created first is dropped, a second one is prepared without the
    force_authn and allow_create arguments, and the outstanding query
    recorded is the id of that second request. *)
Theorem login_post_template_fallback (E : env) (c : conf)
    (idp came_from template location created_id request_xml prepared_id : string)
    (info : http_info) (parts : list string) (w : world) :
  truthy template = true →
  template_exists E template = false →
  sso_location E c idp BINDING_HTTP_POST = Ok location →
  create_authn_request E c location BINDING_HTTP_POST (login_kwargs c) =
    Ok (created_id, request_xml) →
  prepare_for_authenticate E c idp came_from BINDING_HTTP_POST [] =
    Ok (prepared_id, info) →
  hi_data info = Some parts →
  login_send E c idp came_from (Some template) BINDING_HTTP_POST w =
    (Ok (HttpResponse (String.concat "" parts) 200),
     mkWorld (OutstandingQueriesCache.set prepared_id came_from (w_session w))
             (w_user_authenticated w)
             (w_trace w ++ [EvCreateAuthnRequest location BINDING_HTTP_POST;
                            EvPrepareForAuthenticate idp BINDING_HTTP_POST])).
Proof.
  intros Htruthy Hmissing Hloc Hcreate Hprepare Hdata.
  unfold login_send, login_post, login_post_default, login_save, render,
    http_info_data. simpl. run.
  rewrite Htruthy, Hloc. simpl. rewrite Hcreate. simpl. rewrite Hmissing. simpl.
  rewrite Hprepare. simpl. rewrite Hdata. simpl.
  by rewrite <- app_assoc.
Qed.

Lemma login_post_template_fallback_witness :
  let c := mkConf true false false "sha1" in
  let E := Faulty.faulty_env c [BINDING_HTTP_POST] (λ _, false)
             Faulty.prepared_ok (Ok None) None Faulty.no_slo (Ok None)
             (Raise (OtherException "unused")) in
  let out := login_send E c Demo.idp1 "/dashboard"
               (Some "djangosaml2/post_binding_form.html") BINDING_HTTP_POST
               Demo.anonymous in
  out.1 = Ok (HttpResponse "<form></form>" 200)
  ∧ outstanding (out.2) !! "id-prepared" = Some "/dashboard"
  ∧ outstanding (out.2) !! "id-created" = None.
Proof.
  intros c E out.
  pose proof (login_post_template_fallback E c Demo.idp1 "/dashboard"
                "djangosaml2/post_binding_form.html" Demo.idp1 "id-created"
                "<AuthnRequest/>" "id-prepared"
                (mkHttpInfo None (Some ["<form>"; "</form>"])
                   [("Location", "https://idp1.example.org/sso")])
                ["<form>"; "</form>"] Demo.anonymous
                eq_refl eq_refl eq_refl eq_refl eq_refl eq_refl) as H.
  subst out. rewrite H. split_and!; vm_compute; reflexivity.
Defined.

(** ** The assertion consumer service: failures and success *)

(** X11: how [post] reports a response it cannot accept.  Without a
    SAMLResponse parameter it raises SuspiciousOperation before the client
    is called.  An exception of the client that one of the [except] clauses
    catches (StatusError and each of its subclasses, ToEarly,
    ResponseLifetimeExceed, SignatureError, MissingKey,
    UnsolicitedResponse) becomes [fail_acs_response] with status 403 and
    any other exception propagates; a None parse result becomes [fail_acs_response]
    with status 400; a response to no outstanding query (unsolicited
    responses not being allowed) becomes the 403 UnsolicitedResponse
    failure.  In each case the only call made is the parse and the session
    is as before. *)
Theorem post_error_mapping (E : env) (req : request)
    (config_loader_path : option string) (w : world) (c : conf) :
  get_config E config_loader_path req = Ok c →
  let out := post E req config_loader_path w in
  let report e := if acs_handled e then Ok (FailAcsResponse e 403) else Raise e in
  match POST req !! "SAMLResponse" with
  | None => out = (Raise (SuspiciousOperation ""), w)
  | Some xmlstr =>
      let w1 := mkWorld (w_session w) (w_user_authenticated w)
                        (w_trace w ++ [EvParseAuthnResponse xmlstr]) in
      match decode_authn_response E c xmlstr with
      | Raise e => out = (report e, w1)
      | Ok None =>
          out = (Ok (FailAcsResponse (SuspiciousOperation "Unknown SAML2 error") 400),
                 w1)
      | Ok (Some msg) =>
          match outstanding w !! in_response_to msg, allow_unsolicited E c with
          | None, false =>
              out = (Ok (FailAcsResponse (UnsolicitedResponse (in_response_to msg))
                                         403), w1)
          | _, _ =>
              match status_failure msg with
              | Some e => out = (report e, w1)
              | None => acs_failed (out.1) = false ∨ ∃ m st,
                          out.1 = Ok (FailAcsResponse (PermissionDenied m) st)
              end
          end
      end
  end.
Proof.
  intros Hconf out report. subst out report.
  unfold post, parse_authn_request_response, outstanding,
    OutstandingQueriesCache.outstanding_queries. run. rewrite Hconf. simpl.
  destruct (POST req !! "SAMLResponse") as [xmlstr|]; simpl; [|done].
  destruct (decode_authn_response E c xmlstr) as [[msg|]|e]; simpl;
    [| done | by destruct (acs_handled e)].
  assert (Hok : ∀ b : bool,
    (bool_decide (is_Some (s_outstanding_queries (w_session w)
                             !! in_response_to msg)) || b) =
    match s_outstanding_queries (w_session w) !! in_response_to msg with
    | Some _ => true | None => b end).
  { intros b. destruct (_ !! in_response_to msg) eqn:Hl.
    - by rewrite bool_decide_eq_true_2 by eauto.
    - by rewrite bool_decide_eq_false_2 by (by intros [? ?]). }
  rewrite Hok.
  destruct (s_outstanding_queries (w_session w) !! in_response_to msg) as [cf|];
    [|destruct (allow_unsolicited E c); [|done]].
  - destruct (status_failure msg) as [e|]; simpl; [by destruct (acs_handled e)|].
    destruct (authenticate E req (am_session_info msg)) as [user|]; simpl;
      [left|right; eauto].
    by destruct (custom_redirect E _ _ _) as [u|]; [destruct (truthy u)|].
  - destruct (status_failure msg) as [e|]; simpl; [by destruct (acs_handled e)|].
    destruct (authenticate E req (am_session_info msg)) as [user|]; simpl;
      [left|right; eauto].
    by destruct (custom_redirect E _ _ _) as [u|]; [destruct (truthy u)|].
Qed.

Lemma post_error_mapping_witness :
  let E := Faulty.faulty_env Faulty.plain_conf [] (λ _, true) Faulty.prepared_ok
             (Raise SignatureError) (Some "alice") Faulty.no_slo (Ok None)
             (Raise (OtherException "unused")) in
  post E (Demo.acs_request "tampered") None Demo.awaiting =
    (Ok (FailAcsResponse SignatureError 403),
     mkWorld (w_session Demo.awaiting) false [EvParseAuthnResponse "tampered"]).
Proof.
  intros E.
  exact (post_error_mapping E (Demo.acs_request "tampered") None Demo.awaiting
           Faulty.plain_conf eq_refl).
Defined.

Lemma parse_success_run (E : env) (c : conf) (xmlstr binding : string)
    (oq : gmap string string) (msg : authn_message (NameID E)) (w : world) :
  decode_authn_response E c xmlstr = Ok (Some msg) →
  is_Some (oq !! in_response_to msg) ∨ allow_unsolicited E c = true →
  status_failure msg = None →
  parse_authn_request_response E c xmlstr binding oq w =
    (Ok (Some (mkAuthnResponse (in_response_to msg) (am_session_info msg))),
     mkWorld (mkSession (s_subject_id (w_session w))
                        (s_outstanding_queries (w_session w))
                        (s_state (w_session w))
                        (<[code E (name_id (am_session_info msg)) :=
                             issuer (am_session_info msg)]>
                           (s_identities (w_session w))))
             (w_user_authenticated w)
             (w_trace w ++ [EvParseAuthnResponse xmlstr])).
Proof.
  intros Hdec Hcorr Hstatus. unfold parse_authn_request_response. run.
  rewrite Hdec. simpl.
  assert (bool_decide (is_Some (oq !! in_response_to msg))
          || allow_unsolicited E c = true) as ->.
  { destruct Hcorr as [H| ->]; [by rewrite bool_decide_eq_true_2|].
    by rewrite orb_true_r. }
  by rewrite Hstatus.
Qed.

(** X12: a response that parses and for which the backend finds a user is
    answered by a redirect carrying the Authentication cookie with that
    user's access token; the target is the custom redirect when the hook
    gives a non-empty one, otherwise the validated relay state built from
    the posted RelayState (the came_from stored at login is not consulted).
    The subject id is stored in the session, the outstanding query is
    deleted, the post_authenticated signal is sent, and the user is not
    logged into the Django session by this view. *)
Theorem post_success (E : env) (req : request) (config_loader_path : option string)
    (w : world) (c : conf) (xmlstr user : string) (msg : authn_message (NameID E)) :
  get_config E config_loader_path req = Ok c →
  POST req !! "SAMLResponse" = Some xmlstr →
  decode_authn_response E c xmlstr = Ok (Some msg) →
  is_Some (outstanding w !! in_response_to msg) ∨ allow_unsolicited E c = true →
  status_failure msg = None →
  authenticate E req (am_session_info msg) = Some user →
  let out := post E req config_loader_path w in
  let info := am_session_info msg in
  let relay_state := build_relay_state E req in
  let target :=
    match custom_redirect E user relay_state info with
    | Some url => if truthy url then url else validate_referral_url E req relay_state
    | None => validate_referral_url E req relay_state
    end in
  out.1 = Ok (WithCookie (HttpResponseRedirect target) "Authentication"
                         (access_token E user))
  ∧ s_subject_id (w_session (out.2)) = Some (code E (name_id info))
  ∧ outstanding (out.2) = delete (in_response_to msg) (outstanding w)
  ∧ w_user_authenticated (out.2) = w_user_authenticated w
  ∧ w_trace (out.2) =
      (w_trace w ++ [EvParseAuthnResponse xmlstr; EvAuthenticate;
                     EvPostAuthenticated])%list.
Proof.
  intros Hconf Hpost Hdec Hcorr Hstatus Hauth out info relay_state target.
  subst out info relay_state target. unfold post. run.
  rewrite Hconf, Hpost. simpl.
  pose proof (parse_success_run E c xmlstr BINDING_HTTP_POST
                (OutstandingQueriesCache.outstanding_queries (w_session w)) msg w
                Hdec Hcorr Hstatus) as Hparse.
  rewrite Hparse. simpl. rewrite Hauth. simpl.
  unfold set_auth_cookie, outstanding.
  destruct (custom_redirect E user _ _) as [url|]; [destruct (truthy url)|];
    simpl; split_and!; try reflexivity; by rewrite <- !app_assoc.
Qed.

Lemma post_success_witness :
  let E := Demo.demo_env Demo.one_idp [] false false (Some "alice") (Ok []) in
  let out := post E (Demo.acs_request "response-to-id-1") None Demo.awaiting in
  out.1 = Ok (WithCookie (HttpResponseRedirect "/dashboard") "Authentication"
                         "jwt-alice")
  ∧ s_subject_id (w_session (out.2)) = Some "4=alice"
  ∧ w_user_authenticated (out.2) = false.
Proof.
  intros E out.
  pose proof (post_success E (Demo.acs_request "response-to-id-1") None
                Demo.awaiting (mkConf false false false "sha1")
                "response-to-id-1" "alice"
                (mkAuthnMessage "id-1" None (mkSessionInfo "alice" Demo.idp1 []))
                eq_refl eq_refl eq_refl
                (or_introl (ex_intro _ "/dashboard" eq_refl)) eq_refl eq_refl)
    as (H1 & H2 & _ & H3 & _).
  exact (conj H1 (conj H2 H3)).
Defined.

(** X13: a response that parses but for which the backend finds no user is
    answered by [fail_acs_response] with PermissionDenied and status 403:
    the subject id in the session is as before, no post_authenticated
    signal is sent, and the outstanding query is gone all the same. *)
Theorem post_no_user (E : env) (req : request) (config_loader_path : option string)
    (w : world) (c : conf) (xmlstr : string) (msg : authn_message (NameID E)) :
  get_config E config_loader_path req = Ok c →
  POST req !! "SAMLResponse" = Some xmlstr →
  decode_authn_response E c xmlstr = Ok (Some msg) →
  is_Some (outstanding w !! in_response_to msg) ∨ allow_unsolicited E c = true →
  status_failure msg = None →
  authenticate E req (am_session_info msg) = None →
  let out := post E req config_loader_path w in
  out.1 = Ok (FailAcsResponse (PermissionDenied "No user could be authenticated.")
                              403)
  ∧ s_subject_id (w_session (out.2)) = s_subject_id (w_session w)
  ∧ outstanding (out.2) = delete (in_response_to msg) (outstanding w)
  ∧ w_trace (out.2) =
      (w_trace w ++ [EvParseAuthnResponse xmlstr; EvAuthenticate])%list.
Proof.
  intros Hconf Hpost Hdec Hcorr Hstatus Hauth out. subst out. unfold post. run.
  rewrite Hconf, Hpost. simpl.
  pose proof (parse_success_run E c xmlstr BINDING_HTTP_POST
                (OutstandingQueriesCache.outstanding_queries (w_session w)) msg w
                Hdec Hcorr Hstatus) as Hparse.
  rewrite Hparse. simpl. rewrite Hauth. simpl.
  split_and!; try reflexivity. by rewrite <- !app_assoc.
Qed.

Lemma post_no_user_witness :
  let E := Demo.demo_env Demo.one_idp [] false false None (Ok []) in
  let out := post E (Demo.acs_request "response-to-id-1") None Demo.awaiting in
  out.1 = Ok (FailAcsResponse (PermissionDenied "No user could be authenticated.")
                              403)
  ∧ s_subject_id (w_session (out.2)) = None.
Proof.
  intros E out.
  pose proof (post_no_user E (Demo.acs_request "response-to-id-1") None
                Demo.awaiting (mkConf false false false "sha1")
                "response-to-id-1"
                (mkAuthnMessage "id-1" None (mkSessionInfo "alice" Demo.idp1 []))
                eq_refl eq_refl eq_refl
                (or_introl (ex_intro _ "/dashboard" eq_refl)) eq_refl eq_refl)
    as (H1 & H2 & _).
  exact (conj H1 H2).
Defined.

(** X14: the relay state [build_relay_state] returns is never empty when
    the default redirect URL (ACS_DEFAULT_REDIRECT_URL, else
    LOGIN_REDIRECT_URL) is not empty: a RelayState that is posted empty, or
    that the [customize_relay_state] hook maps to the empty string, is
    replaced by that default. *)
Theorem build_relay_state_not_empty (E : env) (req : request) :
  truthy (default (LOGIN_REDIRECT_URL E) (ACS_DEFAULT_REDIRECT_URL E)) = true →
  truthy (build_relay_state E req) = true
  ∧ (customize_relay_state E (default "/" (POST req !! "RelayState")) = "" →
     build_relay_state E req =
       default (LOGIN_REDIRECT_URL E) (ACS_DEFAULT_REDIRECT_URL E)).
Proof.
  intros Hdefault. unfold build_relay_state. split.
  - by destruct (truthy (customize_relay_state E _)) eqn:H.
  - by intros ->.
Qed.

Lemma build_relay_state_not_empty_witness :
  let E := Demo.demo_env Demo.one_idp [] false false None (Ok []) in
  truthy (build_relay_state E (mkRequest ∅ {["RelayState" := ""]})) = true
  ∧ build_relay_state E (mkRequest ∅ {["RelayState" := ""]}) = "/".
Proof.
  intros E.
  pose proof (build_relay_state_not_empty E
                (mkRequest ∅ {["RelayState" := ""]}) eq_refl) as [H1 H2].
  exact (conj H1 (H2 eq_refl)).
Defined.

(** ** Logout initiation: what follows the global logout *)

(** X15: when [global_logout] raises LogoutError for an authenticated
    user, logout answers a redirect to LOGOUT_REDIRECT_URL (to the text
    'None' when the setting has Django's default, None) and the state cache
    the client left is written back to the session; any other exception of
    [global_logout] propagates to the caller. *)
Theorem logout_remote_failure (E : env) (req : request)
    (config_loader_path : option string) (w : world) (c : conf) (e : exn)
    (state : gmap string string) :
  w_user_authenticated w = true →
  get_config E config_loader_path req = Ok c →
  (∀ subject s st, global_logout E c subject s st = (Raise e, state)) →
  let out := logout E req config_loader_path w in
  if is_LogoutError e then
    out.1 = Ok (HttpResponseRedirect (default "None" (LOGOUT_REDIRECT_URL E)))
    ∧ s_state (w_session (out.2)) = state
  else out.1 = Raise e.
Proof.
  intros Hauth Hconf Hslo out. subst out.
  unfold logout, login_required, logout_body, _do_local_logout,
    call_global_logout, auth_logout, settings_LOGOUT_REDIRECT_URL. run.
  rewrite Hauth; simpl; rewrite ?Hauth; simpl. rewrite Hconf. simpl.
  rewrite Hslo. simpl.
  destruct (is_LogoutError e); simpl; [|done].
  by destruct (LOGOUT_REDIRECT_URL E).
Qed.

Lemma logout_remote_failure_witness :
  let E := Faulty.faulty_env Faulty.plain_conf [] (λ _, true) Faulty.prepared_ok
             (Ok None) None
             (Raise (LogoutError "SLO not supported"), {["req-1" := "pending"]})
             (Ok None) (Raise (OtherException "unused")) in
  let out := logout E (mkRequest ∅ ∅) None Demo.logged_in in
  out.1 = Ok (HttpResponseRedirect "/bye")
  ∧ s_state (w_session (out.2)) = {["req-1" := "pending"]}.
Proof.
  intros E out.
  exact (logout_remote_failure E (mkRequest ∅ ∅) None Demo.logged_in
           Faulty.plain_conf (LogoutError "SLO not supported")
           {["req-1" := "pending"]} eq_refl eq_refl (λ _ _ _, eq_refl)).
Defined.

(** ** The logout service: responses and client failures *)

(** X18: a payload with a SAMLResponse is handled as the answer to a logout
    this SP started, whether or not it also holds a SAMLRequest and whether
    or not the session holds a subject id.  Only a parsed response whose
    status is OK ends the local session, through Django's logout view with
    the given next page or else LOGOUT_REDIRECT_URL; a missing response or
    one whose status is not OK is answered by the page
    'djangosaml2/logout_error.html' (not by the template passed to the
    service) and leaves the session and the user as they were; an
    exception of the parser propagates. *)
Theorem logout_service_logout_response (E : env) (req : request)
    (data : gmap string string) (binding saml_response : string)
    (config_loader_path next_page : option string) (logout_error_template : string)
    (w : world) (c : conf) (parsed : outcome (option logout_response))
    (state : gmap string string) :
  get_config E config_loader_path req = Ok c →
  data !! "SAMLResponse" = Some saml_response →
  parse_logout_request_response E c saml_response binding (w_session w)
    (StateCache.load (w_session w)) = (parsed, state) →
  let out := do_logout_service E req data binding config_loader_path next_page
               logout_error_template w in
  let trace := (w_trace w ++ [EvParseLogoutResponse saml_response binding])%list in
  let w1 := mkWorld (w_session w) (w_user_authenticated w) trace in
  let error_page :=
    if template_exists E "djangosaml2/logout_error.html"
    then Ok (Render "djangosaml2/logout_error.html" CtxEmpty 200)
    else Raise TemplateDoesNotExist in
  let target := match next_page with
                | Some page => Some page
                | None => LOGOUT_REDIRECT_URL E
                end in
  match parsed with
  | Raise e => out = (Raise e, w1)
  | Ok None => out = (error_page, w1)
  | Ok (Some response) =>
      if status_ok response then
        out = (Ok (DjangoLogoutResponse target),
               mkWorld empty_session false
                       (trace ++ [EvDjangoLogout target; EvAuthLogout]))
      else out = (error_page, w1)
  end.
Proof.
  intros Hconf Hresp Hparse out trace w1 error_page target.
  subst out trace w1 error_page target.
  unfold do_logout_service, finish_logout, django_logout, render, auth_logout.
  run.
  rewrite Hconf. destruct w as [[subject oq st ids] auth tr]. simpl in *.
  rewrite Hresp. unfold StateCache.load in Hparse. simpl in *.
  rewrite Hparse. simpl.
  destruct parsed as [[response|]|e]; simpl; [|by destruct (template_exists E _)|done].
  destruct (status_ok response); simpl; [by rewrite <- !app_assoc|].
  by destruct (template_exists E _).
Qed.

Lemma logout_service_logout_response_witness :
  let E := Faulty.faulty_env Faulty.plain_conf [] (λ _, true) Faulty.prepared_ok
             (Ok None) None Faulty.no_slo
             (Ok (Some (mkLogoutResponse false)))
             (Raise (OtherException "unused")) in
  let req := mkRequest ∅ {["SAMLResponse" := "denied"; "SAMLRequest" := "ignored"]} in
  do_logout_service E req (POST req) BINDING_HTTP_POST None None "custom_error.html"
                    Demo.logged_in =
    (Ok (Render "djangosaml2/logout_error.html" CtxEmpty 200),
     mkWorld (w_session Demo.logged_in) true
             [EvParseLogoutResponse "denied" BINDING_HTTP_POST]).
Proof.
  intros E req.
  exact (logout_service_logout_response E req (POST req) BINDING_HTTP_POST "denied"
           None None "custom_error.html" Demo.logged_in Faulty.plain_conf
           (Ok (Some (mkLogoutResponse false))) ∅ eq_refl eq_refl eq_refl).
Defined.

(** X19: when the IdP asks for a logout, the session holds a subject id and
    the client raises while it handles the request, the exception reaches
    the caller before the local logout: the user stays logged in and the
    session is as it was. *)
Theorem logout_service_client_failure (E : env) (req : request)
    (data : gmap string string) (binding saml_request : string)
    (config_loader_path next_page : option string) (logout_error_template : string)
    (w : world) (c : conf) (subject_id : NameID E) (e : exn)
    (state : gmap string string) :
  get_config E config_loader_path req = Ok c →
  data !! "SAMLResponse" = None →
  data !! "SAMLRequest" = Some saml_request →
  _get_subject_id E (w_session w) = Some subject_id →
  handle_logout_request E c saml_request subject_id binding
    (default "" (data !! "RelayState")) (w_session w)
    (StateCache.load (w_session w)) = (Raise e, state) →
  do_logout_service E req data binding config_loader_path next_page
                    logout_error_template w =
    (Raise e,
     mkWorld (w_session w) (w_user_authenticated w)
             (w_trace w ++ [EvHandleLogoutRequest saml_request binding])).
Proof.
  intros Hconf Hresp Hreq Hsubject Hhandle.
  unfold do_logout_service. run. rewrite Hconf.
  destruct w as [[subject oq st ids] auth tr]. simpl in *.
  unfold _get_subject_id, StateCache.load in *. simpl in *.
  destruct subject as [txt|]; [|done]. injection Hsubject as <-.
  rewrite Hresp, Hreq. simpl. by rewrite Hhandle.
Qed.

Lemma logout_service_client_failure_witness :
  let E := Faulty.faulty_env Faulty.plain_conf [] (λ _, true) Faulty.prepared_ok
             (Ok None) None Faulty.no_slo (Ok None)
             (Raise (OtherException "VerifyError")) in
  let req := mkRequest {["SAMLRequest" := "logout-request"]} ∅ in
  let out := logout_service E req None None "djangosaml2/logout_error.html"
               Demo.logged_in in
  out.1 = Raise (OtherException "VerifyError")
  ∧ w_user_authenticated (out.2) = true.
Proof.
  intros E req out.
  pose proof (logout_service_client_failure E req (GET req) BINDING_HTTP_REDIRECT
                "logout-request" None None "djangosaml2/logout_error.html"
                Demo.logged_in Faulty.plain_conf "alice"
                (OtherException "VerifyError") ∅
                eq_refl eq_refl eq_refl eq_refl eq_refl) as H.
  subst out. unfold logout_service. rewrite H. split; reflexivity.
Defined.

(** X20: [logout_service_post] never raises: when [do_logout_service] on
    the POST data answers a response the POST endpoint answers the same
    response, when it raises the POST endpoint returns None, and in both
    cases with the very effects of [do_logout_service] (a local logout
    that was already performed is not undone). *)
Theorem logout_service_post_agrees (E : env) (req : request)
    (config_loader_path next_page : option string) (logout_error_template : string)
    (w : world) :
  let inner := do_logout_service E req (POST req) BINDING_HTTP_POST
                 config_loader_path next_page logout_error_template w in
  logout_service_post E req config_loader_path next_page logout_error_template w =
    (match inner.1 with
     | Ok response => Ok (Some response)
     | Raise _ => Ok None
     end, inner.2).
Proof.
  intros inner. subst inner. unfold logout_service_post. run.
  by destruct (do_logout_service E req _ _ _ _ _ w) as [[r|e] w'].
Qed.

(** ** [login]: the requests that go out *)

(** X8: over HTTP-Redirect the client prepares the request with the
    force_authn and allow_create arguments the configuration asks for and,
    when requests are signed, with the signature algorithm 'sha1' or
    'sha256' stands for; login answers a redirect to the location the
    client gives and records the request id with came_from. *)
Theorem login_redirect_success (E : env) (c : conf)
    (idp came_from session_id url : string) (post_template : option string)
    (info : http_info) (w : world) :
  let sigalg :=
    if sp_authn_requests_signed c then
      if String.eqb (sp_authn_requests_signed_alg c) "sha1"
      then [("sigalg", SIG_RSA_SHA1)] else [("sigalg", SIG_RSA_SHA256)]
    else [] in
  (sp_authn_requests_signed c = true →
   sp_authn_requests_signed_alg c = "sha1"
   ∨ sp_authn_requests_signed_alg c = "sha256") →
  prepare_for_authenticate E c idp came_from BINDING_HTTP_REDIRECT
    (login_kwargs c ++ sigalg) = Ok (session_id, info) →
  get_location E info = Ok url →
  login_send E c idp came_from post_template BINDING_HTTP_REDIRECT w =
    (Ok (HttpResponseRedirect url),
     mkWorld (OutstandingQueriesCache.set session_id came_from (w_session w))
             (w_user_authenticated w)
             (w_trace w ++ [EvPrepareForAuthenticate idp BINDING_HTTP_REDIRECT])).
Proof.
  intros sigalg Halg Hprepare Hloc. subst sigalg.
  unfold login_send, login_redirect, login_save, sig_alg_option_map. simpl. run.
  destruct (sp_authn_requests_signed c); simpl in *.
  - destruct (Halg eq_refl) as [Hsha|Hsha]; rewrite Hsha in *; simpl in *;
      rewrite Hprepare; simpl; by rewrite Hloc.
  - rewrite app_nil_r in Hprepare. rewrite Hprepare. simpl. by rewrite Hloc.
Qed.

Lemma login_redirect_success_witness :
  let c := mkConf true false true "sha256" in
  let E := Faulty.faulty_env c [BINDING_HTTP_REDIRECT] (λ _, true)
             Faulty.prepared_ok (Ok None) None Faulty.no_slo (Ok None)
             (Raise (OtherException "unused")) in
  let out := login_send E c Demo.idp1 "/dashboard" None BINDING_HTTP_REDIRECT
               Demo.anonymous in
  out.1 = Ok (HttpResponseRedirect "https://idp1.example.org/sso")
  ∧ outstanding (out.2) !! "id-prepared" = Some "/dashboard".
Proof.
  intros c E out.
  pose proof (login_redirect_success E c Demo.idp1 "/dashboard" "id-prepared"
                "https://idp1.example.org/sso" None
                (mkHttpInfo None (Some ["<form>"; "</form>"])
                   [("Location", "https://idp1.example.org/sso")])
                Demo.anonymous (λ _, or_intror eq_refl) eq_refl eq_refl) as H.
  subst out. rewrite H. split; vm_compute; reflexivity.
Defined.

(** X9: over HTTP-POST with a form template that exists, login creates the
    request for the IdP's SSO location and answers the template rendered
    with that location, the base64 of the request and came_from as
    RelayState; it records the id of the created request and never calls
    [prepare_for_authenticate]. *)
Theorem login_post_form_success (E : env) (c : conf)
    (idp came_from template location session_id request_xml : string) (w : world) :
  truthy template = true →
  template_exists E template = true →
  sso_location E c idp BINDING_HTTP_POST = Ok location →
  create_authn_request E c location BINDING_HTTP_POST (login_kwargs c) =
    Ok (session_id, request_xml) →
  login_send E c idp came_from (Some template) BINDING_HTTP_POST w =
    (Ok (Render template
           (CtxPostBinding location (b64encode E request_xml) came_from) 200),
     mkWorld (OutstandingQueriesCache.set session_id came_from (w_session w))
             (w_user_authenticated w)
             (w_trace w ++ [EvCreateAuthnRequest location BINDING_HTTP_POST])).
Proof.
  intros Htruthy Hexists Hloc Hcreate.
  unfold login_send, login_post, login_save, render. simpl. run.
  rewrite Htruthy, Hloc. simpl. rewrite Hcreate. simpl. by rewrite Hexists.
Qed.

Lemma login_post_form_success_witness :
  let E := Demo.demo_env Demo.one_idp [BINDING_HTTP_POST] true false None (Ok []) in
  let c := mkConf false false true "sha1" in
  let out := login_send E c Demo.idp1 "/dashboard"
               (Some "djangosaml2/post_binding_form.html") BINDING_HTTP_POST
               Demo.anonymous in
  out.1 = Ok (Render "djangosaml2/post_binding_form.html"
                (CtxPostBinding Demo.idp1 "<AuthnRequest/>" "/dashboard") 200)
  ∧ w_trace (out.2) = [EvCreateAuthnRequest Demo.idp1 BINDING_HTTP_POST].
Proof.
  intros E c out.
  pose proof (login_post_form_success E c Demo.idp1 "/dashboard"
                "djangosaml2/post_binding_form.html" Demo.idp1 "id-1"
                "<AuthnRequest/>" Demo.anonymous
                eq_refl eq_refl eq_refl eq_refl) as H.
  subst out. rewrite H. split; reflexivity.
Defined.

(** X10: an [idp] parameter is taken as it is: whenever at least one IdP is
    configured, login looks up the bindings of the entity the parameter
    names and goes on to send the request to it, without showing the
    discovery page and without checking that the entity is among the
    available IdPs. *)
Theorem login_idp_parameter_unchecked (E : env) (req : request)
    (config_loader_path : option string) (wayf_template auth_error_template : string)
    (post_template : option string) (w : world) (c : conf) (idp : string) :
  w_user_authenticated w = false →
  get_config E config_loader_path req = Ok c →
  GET req !! "idp" = Some idp →
  available_idps E c ≠ [] →
  login E req config_loader_path wayf_template auth_error_template post_template w =
    match get_idp_sso_supported_bindings E idp c with
    | Raise e => (Raise e, w)
    | Ok supported =>
        match select_binding (sp_authn_requests_signed c) supported with
        | Ok binding =>
            login_send E c idp (login_came_from E req) post_template binding w
        | Raise e => (Raise e, w)
        end
    end.
Proof.
  intros Hanon Hconf Hidp Hidps.
  destruct (get_idp_sso_supported_bindings E idp c) as [supported|e] eqn:Hsup.
  - apply login_reaches_send; try done.
    rewrite Hidp. unfold selected_or_sole.
    by destruct (available_idps E c).
  - unfold login, login_select_idp. run. rewrite Hanon, Hconf, Hidp.
    destruct (available_idps E c); [done|]. simpl. by rewrite Hsup.
Qed.

Lemma login_idp_parameter_unchecked_witness :
  let E := Demo.demo_env Demo.two_idps [BINDING_HTTP_REDIRECT] false false None
             (Ok []) in
  let req := mkRequest {["idp" := "https://unknown.example.org/"]} ∅ in
  let out := login E req None "djangosaml2/wayf.html" "djangosaml2/auth_error.html"
               None Demo.anonymous in
  out.1 = Ok (HttpResponseRedirect "https://unknown.example.org/?RelayState=/")
  ∧ w_trace (out.2) =
      [EvPrepareForAuthenticate "https://unknown.example.org/" BINDING_HTTP_REDIRECT].
Proof.
  intros E req out.
  pose proof (login_idp_parameter_unchecked E req None "djangosaml2/wayf.html"
                "djangosaml2/auth_error.html" None Demo.anonymous
                (mkConf false false false "sha1") "https://unknown.example.org/"
                eq_refl eq_refl eq_refl ltac:(discriminate)) as H.
  subst out. rewrite H. split; vm_compute; reflexivity.
Defined.

(** X16: when [global_logout] returns a result for an authenticated user,
    logout writes the state cache the client left back to the session and
    answers from the first entry: the bad-request page when there is none
    (the local logout has happened all the same), the joined form data for
    HTTP-POST, a redirect to the given location for HTTP-Redirect, the
    server error 'Failed to log out' for any other binding, and the
    outcome of [finish_logout] for a SOAP response. *)
Theorem logout_remote_result (E : env) (req : request)
    (config_loader_path : option string) (w : world) (c : conf)
    (result : list (string * logout_info)) (state : gmap string string) :
  w_user_authenticated w = true →
  get_config E config_loader_path req = Ok c →
  (∀ subject s st, global_logout E c subject s st = (Ok result, state)) →
  let out := logout E req config_loader_path w in
  match result with
  | [] =>
      out.1 = Ok (HttpResponseBadRequest "You are not logged in any IdP/AA")
      ∧ s_state (w_session (out.2)) = state
  | (_, LogoutTuple binding info) :: _ =>
      out.1 =
        (if String.eqb binding BINDING_HTTP_POST then
           match http_info_data info with
           | Ok body => Ok (HttpResponse body 200)
           | Raise e => Raise e
           end
         else if String.eqb binding BINDING_HTTP_REDIRECT then
           match get_location E info with
           | Ok location => Ok (HttpResponseRedirect location)
           | Raise e => Raise e
           end
         else Ok (HttpResponseServerError "Failed to log out"))
      ∧ s_state (w_session (out.2)) = state
  | (_, LogoutSoap response) :: _ =>
      out.1 = (finish_logout E response None w).1
  end.
Proof.
  intros Hauth Hconf Hslo out. subst out.
  unfold logout, login_required, logout_body, _do_local_logout,
    call_global_logout, auth_logout, StateCache.sync. run.
  rewrite Hauth; simpl; rewrite ?Hauth; simpl. rewrite Hconf. simpl.
  rewrite Hslo. simpl.
  destruct result as [|[entityid [binding info|response]] rest]; simpl.
  - done.
  - run. destruct (String.eqb binding BINDING_HTTP_POST); simpl.
    { by destruct (http_info_data info). }
    destruct (String.eqb binding BINDING_HTTP_REDIRECT); simpl; [|done].
    by destruct (get_location E info).
  - unfold finish_logout, django_logout, render. run.
    destruct response as [r|]; [destruct (status_ok r)|]; simpl; try done;
      by destruct (template_exists E _).
Qed.

Lemma logout_remote_result_witness :
  let E := Faulty.faulty_env Faulty.plain_conf [] (λ _, true) Faulty.prepared_ok
             (Ok None) None
             (Ok [(Demo.idp1, LogoutTuple "urn:oasis:names:tc:SAML:2.0:bindings:SOAP"
                                (Demo.redirect_to "https://idp1.example.org/slo"))],
              {["req-1" := "pending"]})
             (Ok None) (Raise (OtherException "unused")) in
  let out := logout E (mkRequest ∅ ∅) None Demo.logged_in in
  out.1 = Ok (HttpResponseServerError "Failed to log out")
  ∧ s_state (w_session (out.2)) = {["req-1" := "pending"]}.
Proof.
  intros E out.
  exact (logout_remote_result E (mkRequest ∅ ∅) None Demo.logged_in
           Faulty.plain_conf
           [(Demo.idp1, LogoutTuple "urn:oasis:names:tc:SAML:2.0:bindings:SOAP"
                          (Demo.redirect_to "https://idp1.example.org/slo"))]
           {["req-1" := "pending"]} eq_refl eq_refl (λ _ _ _, eq_refl)).
Defined.
